(** * MemberCard: identifier normalisation and the batch card pipeline

    A shallow embedding of [app.py]: the identifier normaliser
    [format_card_id], the file-name sanitiser [sanitize_filename], the
    display-text decision and the per-row loop of [generate_cards_from_df],
    and the notification sink [send_email_with_attachment].

    Python [str] values are modelled as lists of 8-bit characters, read as
    the code points U+0000..U+00FF; the character classes below are
    Python's own ([str.isalnum], [str.isdigit], [str.isspace], the regex
    classes) restricted to that range. *)

From Stdlib Require Import Ascii String.
From Stdlib Require Import List Bool Arith NArith ZArith Lia.
Import ListNotations.

Open Scope string_scope.
Open Scope nat_scope.
Open Scope list_scope.

(** ** Strings *)

Definition pystr : Type := list ascii.

(** String literals of the source are written as Rocq string literals. *)
Coercion list_ascii_of_string : string >-> list.

Definition ord (c : ascii) : N := N_of_ascii c.

Definition between (lo hi : N) (c : ascii) : bool :=
  ((lo <=? ord c) && (ord c <=? hi))%N.

Definition is_cp (n : N) (c : ascii) : bool := (ord c =? n)%N.

(** [str.isdecimal], also the regex class [\d]: category Nd. *)
Definition isdecimal (c : ascii) : bool := between 48 57 c.

(** [str.isdigit]: the decimal digits and the superscripts 1, 2, 3. *)
Definition isdigit (c : ascii) : bool :=
  isdecimal c || is_cp 178 c || is_cp 179 c || is_cp 185 c.

(** [str.isnumeric]: the digits and the vulgar fractions. *)
Definition isnumeric (c : ascii) : bool := isdigit c || between 188 190 c.

(** [str.isalpha]: the letters of the Latin-1 range. *)
Definition isalpha (c : ascii) : bool :=
  between 65 90 c || between 97 122 c
  || is_cp 170 c || is_cp 181 c || is_cp 186 c
  || between 192 214 c || between 216 246 c || between 248 255 c.

Definition isalnum (c : ascii) : bool :=
  isalpha c || isdecimal c || isdigit c || isnumeric c.

(** [str.isspace], the characters removed by [str.strip()]. *)
Definition isspace (c : ascii) : bool :=
  between 9 13 c || between 28 32 c || is_cp 133 c || is_cp 160 c.

(** The regex class [[A-Za-z]]. *)
Definition is_ascii_letter (c : ascii) : bool :=
  between 65 90 c || between 97 122 c.

(** [str.lower] on one character. *)
Definition lower_char (c : ascii) : ascii :=
  if between 65 90 c || between 192 214 c || between 216 222 c
  then ascii_of_N (ord c + 32)
  else c.

Definition lower (s : pystr) : pystr := map lower_char s.

Definition pystr_eqb (s t : pystr) : bool :=
  if list_eq_dec ascii_dec s t then true else false.

(** [s.startswith(p)] *)
Fixpoint startswith (s p : pystr) {struct p} : bool :=
  match p, s with
  | [], _ => true
  | _ :: _, [] => false
  | a :: p', b :: s' => Ascii.eqb a b && startswith s' p'
  end.

(** [s.endswith(p)] *)
Definition endswith (s p : pystr) : bool := startswith (rev s) (rev p).

(** [s[i:j]], [s[:j]] and [s[i:]] for non-negative bounds. *)
Definition slice (i j : nat) (s : pystr) : pystr := firstn (j - i) (skipn i s).
Definition slice_to (j : nat) (s : pystr) : pystr := firstn j s.
Definition slice_from (i : nat) (s : pystr) : pystr := skipn i s.

(** [s.ljust(width, fill)] *)
Definition ljust (width : nat) (fill : ascii) (s : pystr) : pystr :=
  s ++ repeat fill (width - length s).

(** [''.join(c for c in s if p(c))] *)
Definition join_if (p : ascii -> bool) (s : pystr) : pystr := filter p s.

Fixpoint dropwhile (p : ascii -> bool) (s : pystr) : pystr :=
  match s with
  | [] => []
  | c :: s' => if p c then dropwhile p s' else s
  end.

Fixpoint takewhile (p : ascii -> bool) (s : pystr) : pystr :=
  match s with
  | [] => []
  | c :: s' => if p c then c :: takewhile p s' else []
  end.

(** [s.strip()] *)
Definition lstrip (s : pystr) : pystr := dropwhile isspace s.
Definition rstrip (s : pystr) : pystr := rev (dropwhile isspace (rev s)).
Definition strip (s : pystr) : pystr := lstrip (rstrip s).

(** [s.replace(a, b)] for single characters. *)
Definition replace_char (a b : ascii) (s : pystr) : pystr :=
  map (fun c => if Ascii.eqb c a then b else c) s.

(** ** The identifier normaliser *)

(** [cleaned = ''.join(c for c in str(card_id) if c.isalnum())] *)
Definition clean (card_id : pystr) : pystr := join_if isalnum card_id.

Definition format_card_id (card_id : pystr) : pystr :=
  let cleaned := clean card_id in
  if startswith cleaned "AL001" || startswith cleaned "STE" then
    let prefix : pystr := "AL001" in
    let '(category, digits) :=
      if startswith cleaned "AL001" then
        (if 8 <=? length cleaned then slice 5 8 cleaned else ("XXX" : pystr),
         join_if isdigit (slice_from 8 cleaned))
      else
        (slice_to 3 cleaned, join_if isdigit (slice_from 3 cleaned)) in
    let numbers := ljust 7 "0" (slice_to 7 digits) in
    let suffix := ljust 4 "0" (slice 7 11 digits) in
    prefix ++ "/" ++ category ++ "-" ++ numbers ++ "/" ++ suffix
  else
    let chars := ljust 3 "X" (slice_to 3 cleaned) in
    let digits := join_if isdigit cleaned in
    let numbers := ljust 11 "0" (slice_to 11 digits) in
    chars ++ "-" ++ slice_to 4 numbers ++ " " ++ slice 4 8 numbers
          ++ " " ++ slice 8 11 numbers.

(** ** File names *)

Definition dquote : ascii := Eval cbv in ascii_of_N 34.
Definition newline : ascii := Eval cbv in ascii_of_N 10.

(** The character class of the regex in line 67: backslash, slash, star,
    question mark, colon, double quote, the angle brackets, bar, newline. *)
Definition path_hostile (c : ascii) : bool :=
  existsb (Ascii.eqb c)
    ["\"%char; "/"%char; "*"%char; "?"%char; ":"%char; dquote;
     "<"%char; ">"%char; "|"%char; newline].

(** [re.sub(cls, '', s)] for a one-character class. *)
Definition re_sub_delete (cls : ascii -> bool) (s : pystr) : pystr :=
  filter (fun c => negb (cls c)) s.

Definition sanitize_filename (name : pystr) : pystr :=
  let name := replace_char " " "_" name in
  slice_to 100 (re_sub_delete path_hostile name).

(** [os.path.join(a, b)] of [posixpath]. *)
Definition os_path_join (a b : pystr) : pystr :=
  if startswith b "/" then b
  else if (match a with [] => true | _ => false end) || endswith a "/"
       then a ++ b
       else a ++ "/" ++ b.

(** [os.path.basename(p)] of [posixpath]: what follows the last slash. *)
Fixpoint os_path_basename (p : pystr) : pystr :=
  match p with
  | [] => []
  | c :: p' =>
      if existsb (Ascii.eqb "/") p' then os_path_basename p'
      else if Ascii.eqb c "/" then p' else p
  end.

(** The name under which a row's card is saved, line 212. *)
Definition artifact_name (name Card : pystr) : pystr :=
  sanitize_filename name ++ "_" ++ sanitize_filename Card ++ ".png".

(** ** The display text *)

(** [re.match(r'^([A-Za-z]{3})(\d+)$', Card)]: the two groups on a match.
    Without [re.MULTILINE], [$] matches at the end of the string and also
    just before a final newline. *)
Definition re_match_card (Card : pystr) : option (pystr * pystr) :=
  let letters := firstn 3 Card in
  let rest := skipn 3 Card in
  let digits := takewhile isdecimal rest in
  let tail := dropwhile isdecimal rest in
  if (length letters =? 3) && forallb is_ascii_letter letters
     && negb (length digits =? 0)
     && (pystr_eqb tail [] || pystr_eqb tail [newline])
  then Some (letters, digits)
  else None.

(** Lines 194-201. *)
Definition display_text (Card : pystr) : pystr :=
  if startswith Card "AL001" then format_card_id Card
  else match re_match_card Card with
       | Some (g1, g2) => g1 ++ " " ++ g2
       | None => Card
       end.

(** ** The world outside the program

    Image files, fonts, the date parser and the mail server are outside
    the program; what they answer is given by a [world].  Each row of a
    batch meets its own [outcomes], indexed by the row's position, so that
    a file may open for one row and fail for the next. *)

Inductive exn : Type :=
| OpenFailed (path : pystr)      (* [Image.open] raised *)
| SaveFailed (path : pystr)      (* [card.save] raised *)
| ComposeFailed                  (* lines 95-153 raised *)
| SMTPFailed (e : pystr).        (* the mail session raised; [e] is the
                                    text of the exception *)

Record outcomes : Type := {
  path_exists : pystr -> bool;       (* [os.path.exists] *)
  image_open : pystr -> bool;        (* [Image.open] returns *)
  label_height : Z;                  (* [bbox[3] - bbox[1]] of the label *)
  image_save : pystr -> bool;        (* [card.save] returns *)
  strftime : pystr -> option pystr;  (* [pd.to_datetime(v).strftime(..)],
                                        [None] when it raises *)
  compose : bool;                    (* lines 95-153 return *)
  smtp : option pystr;               (* lines 156-159: [None], the message is
                                        handed over; [Some e], an exception
                                        of text [e] reaches the handler
                                        before that *)
  smtp_quit : option pystr;          (* leaving the [with] of line 156 after
                                        a delivery: [None], the session is
                                        closed; [Some e], an exception of
                                        text [e] is raised *)
  exn_str : exn -> pystr             (* [str(e)] of any other exception, as
                                        the handler of line 161 would
                                        format it *)
}.

(** [str(e)], as lines 162 and 288 format it: a mail-session exception
    carries its text; the text of an exception of the image library or of
    the message classes is the library's, [lib]. *)
Definition exn_text (lib : exn -> pystr) (e : exn) : pystr :=
  match e with
  | SMTPFailed t => t
  | _ => lib e
  end.

Record world : Type := {
  truetype : pystr -> nat -> bool;   (* [ImageFont.truetype] returns *)
  at_row : nat -> outcomes
}.

(** ** Data *)

(** A spreadsheet cell, as far as the program looks at it: whether
    [pd.notna] holds and what [str] gives. *)
Record cell : Type := { notna : bool; str_of : pystr }.

Definition text_cell (s : pystr) : cell := {| notna := true; str_of := s |}.
Definition nan_cell : cell := {| notna := false; str_of := "nan" |}.

(** A row; [None] is a column the table does not have. *)
Record row : Type := {
  cName : option cell;
  cCard : option cell;
  cDate : option cell;
  cVIP : option cell;
  cEmail : option cell
}.

(** [row.get(key, default)] *)
Definition get (c : option cell) (default : cell) : cell :=
  match c with Some v => v | None => default end.

Inductive font : Type :=
| TrueType (path : pystr) (size : nat)
| DefaultFont.

Record overlay : Type := { at_pos : Z * Z; text : pystr; with_font : font }.

Record image : Type := { template : pystr; overlays : list overlay }.

Record message : Type := {
  msg_to : pystr;
  msg_subject : pystr;
  msg_body : pystr;
  msg_attachments : list pystr
}.

Inductive log_entry : Type :=
| LogInfo (s : pystr)
| LogWarning (s : pystr)
| LogError (s : pystr).

(** What a batch leaves behind: the files saved, the messages delivered
    and the log, each in the order of the events. *)
Record state : Type := {
  saved : list (pystr * image);
  sent : list message;
  log : list log_entry
}.

Definition init : state := {| saved := []; sent := []; log := [] |}.

(** ** Effects: state and exceptions *)

Definition M (A : Type) : Type := state -> (A + exn) * state.

Definition ret {A} (a : A) : M A := fun s => (inl a, s).

Definition raise {A} (e : exn) : M A := fun s => (inr e, s).

Definition bind {A B} (m : M A) (k : A -> M B) : M B :=
  fun s => match m s with
           | (inl a, s') => k a s'
           | (inr e, s') => (inr e, s')
           end.

(** [try: m except Exception as e: h e] *)
Definition try_except {A} (m : M A) (h : exn -> M A) : M A :=
  fun s => match m s with
           | (inl a, s') => (inl a, s')
           | (inr e, s') => h e s'
           end.

Declare Scope py_scope.
Delimit Scope py_scope with py.
Notation "x <- m ;; k" := (bind m (fun x => k))
  (at level 61, m at next level, right associativity) : py_scope.
Notation "m ;; k" := (bind m (fun _ => k))
  (at level 61, right associativity) : py_scope.
Open Scope py_scope.

Definition logging (e : log_entry) : M unit :=
  fun s => (inl tt, {| saved := saved s; sent := sent s; log := log s ++ [e] |}).

Definition write_file (path : pystr) (im : image) : M unit :=
  fun s => (inl tt, {| saved := saved s ++ [(path, im)]; sent := sent s; log := log s |}).

Definition deliver (m : message) : M unit :=
  fun s => (inl tt, {| saved := saved s; sent := sent s ++ [m]; log := log s |}).

(** ** Configuration, lines 22-36 *)

Definition FONT_PATH : pystr := "Hopone.ttf".
Definition TEMPLATE_IMAGE : pystr := "Card_Regular.jpg".
Definition LEFT_MARGIN : Z := 60.
Definition POLICY_NO_POS : Z * Z := (LEFT_MARGIN, 200%Z).
Definition VALID_UNTIL_LABEL_POS : Z * Z := (LEFT_MARGIN, 280%Z).
Definition NAME_POS : Z * Z := (LEFT_MARGIN, 390%Z).
Definition FONT_SIZE_POLICY_NO : nat := 36.
Definition FONT_SIZE_DATE : nat := 22.
Definition FONT_SIZE_NAME : nat := 25.
Definition FONT_SIZE_LABEL : nat := 18.

Definition load_font (w : world) (path : pystr) (size : nat) : font :=
  if truetype w path size then TrueType path size else DefaultFont.

(** ** The notification sink *)

(** Lines 95-153: the configuration is read and the message is built, the
    fixed second attachment and the card are attached.  None of it is
    inside a handler. *)
Definition build_message (o : outcomes) (to_email subject body_text : pystr)
    (attachment_path : option pystr) : M message :=
  if negb (compose o) then raise ComposeFailed
  else
    let redemption_path := os_path_join "static" "Redemption.jpg" in
    let fixed :=
      if path_exists o redemption_path
         && negb (pystr_eqb (lower (os_path_basename redemption_path)) "emailbody.jpg")
      then ["Redemption.jpg" : pystr] else [] in
    let body : pystr :=
      match body_text with
      | [] => "Please view this email in HTML format."
      | _ => body_text
      end in
    let msg atts :=
      {| msg_to := to_email; msg_subject := subject; msg_body := body;
         msg_attachments := fixed ++ atts |} in
    match attachment_path with
    | Some p =>
        if negb (length p =? 0) && path_exists o p then
          if negb (pystr_eqb (lower (os_path_basename p)) "emailbody.jpg")
          then ret (msg [os_path_basename p])
          else logging (LogWarning "Skipped attaching EmailBody.jpg explicitly.") ;;
               ret (msg [])
        else ret (msg [])
    | None => ret (msg [])
    end.

(** Lines 156-159: connect, [starttls], [login], [send_message]. *)
Definition smtp_session (o : outcomes) (msg : message) : M unit :=
  match smtp o with
  | None => deliver msg
  | Some e => raise (SMTPFailed e)
  end.

(** The end of the [with] of line 156, reached after line 160:
    [SMTP.__exit__] sends QUIT and raises when the answer is not 221. *)
Definition smtp_close (o : outcomes) : M unit :=
  match smtp_quit o with
  | None => ret tt
  | Some e => raise (SMTPFailed e)
  end.

Definition send_email_with_attachment (o : outcomes)
    (to_email subject body_text : pystr) (attachment_path : option pystr) : M unit :=
  msg <- build_message o to_email subject body_text attachment_path ;;
  try_except
    (smtp_session o msg ;;
     logging (LogInfo ("Email sent to " ++ to_email)) ;;
     smtp_close o)
    (fun e => logging (LogError ("SMTP send failed: " ++ exn_text (exn_str o) e))).

(** ** The batch pipeline *)

Record fonts : Type := {
  font_label : font;
  font_policy_no : font;
  font_date : font;
  font_name : font
}.

(** Lines 172-183: the fields of a row. *)
Definition row_name (r : row) : pystr := str_of (get (cName r) (text_cell "Unknown")).

Definition row_Card (r : row) : pystr :=
  strip (str_of (get (cCard r) (text_cell "Unknown"))).

Definition row_date (o : outcomes) (r : row) : pystr :=
  let date_val := get (cDate r) (text_cell "") in
  if notna date_val then
    match strftime o (str_of date_val) with
    | Some d => d
    | None => str_of date_val
    end
  else "".

Definition row_vip_status (r : row) : pystr :=
  lower (strip (str_of (get (cVIP r) (text_cell "no")))).

Definition row_email (r : row) : option pystr :=
  match cEmail r with
  | Some c => if notna c then Some (str_of c) else None
  | None => None
  end.

(** Lines 185-187. *)
Definition row_template (o : outcomes) (r : row) : pystr :=
  let template_img :=
    os_path_join "static"
      (if pystr_eqb (row_vip_status r) "yes" then "Card_VIP.jpg" else "Card_Regular.jpg") in
  if negb (path_exists o template_img) then os_path_join "static" TEMPLATE_IMAGE
  else template_img.

(** Lines 190-210: the card drawn for a row. *)
Definition draw_card (f : fonts) (o : outcomes) (r : row) : image :=
  {| template := row_template o r;
     overlays :=
       [ {| at_pos := POLICY_NO_POS; text := display_text (row_Card r);
            with_font := font_policy_no f |};
         {| at_pos := VALID_UNTIL_LABEL_POS; text := "VALID";
            with_font := font_label f |};
         {| at_pos := (fst VALID_UNTIL_LABEL_POS,
                       (snd VALID_UNTIL_LABEL_POS + label_height o + 5)%Z);
            text := "UNTIL - " ++ row_date o r; with_font := font_date f |};
         {| at_pos := NAME_POS; text := row_name r; with_font := font_name f |} ] |}.

Definition row_filename (output_folder : pystr) (r : row) : pystr :=
  os_path_join output_folder
    (sanitize_filename (row_name r) ++ "_" ++ sanitize_filename (row_Card r) ++ ".png").

(** The body of the loop, lines 172-217. *)
Definition process_row (f : fonts) (output_folder : pystr) (o : outcomes) (r : row) : M unit :=
  let template_img := row_template o r in
  (if image_open o template_img then ret tt else raise (OpenFailed template_img)) ;;
  let card := draw_card f o r in
  let filename := row_filename output_folder r in
  (if image_save o filename then write_file filename card
   else raise (SaveFailed filename)) ;;
  match row_email r with
  | Some email =>
      if negb (length email =? 0) then
        let subject : pystr := "Your A-Member Card Awaits You" in
        send_email_with_attachment o email subject "" (Some filename)
      else ret tt
  | None => ret tt
  end.

(** [for _, row in df.iterrows(): body]; [i] is the position of the first
    row of [df] in the batch. *)
Fixpoint iterrows (body : outcomes -> row -> M unit) (w : nat -> outcomes)
    (i : nat) (df : list row) : M unit :=
  match df with
  | [] => ret tt
  | r :: df' => body (w i) r ;; iterrows body w (S i) df'
  end.

Definition load_fonts (w : world) : fonts :=
  {| font_label := load_font w FONT_PATH FONT_SIZE_LABEL;
     font_policy_no := load_font w FONT_PATH FONT_SIZE_POLICY_NO;
     font_date := load_font w FONT_PATH FONT_SIZE_DATE;
     font_name := load_font w FONT_PATH FONT_SIZE_NAME |}.

Definition generate_cards_from_df (w : world) (df : list row) (output_folder : pystr) : M unit :=
  let f := load_fonts w in
  iterrows (process_row f output_folder) (at_row w) 0 df.

(** ** The spec's vocabulary *)

(** A digit field of the templates: only digits, in the sense of
    [str.isdigit], the test the normaliser applies. *)
Definition all_digits (s : pystr) : Prop := Forall (fun c => isdigit c = true) s.


(** The template [CCC-NNNN NNNN NNN]. *)
Definition default_form (out : pystr) : Prop :=
  exists chars g1 g2 g3 : pystr,
    out = chars ++ "-" ++ g1 ++ " " ++ g2 ++ " " ++ g3
    /\ length chars = 3
    /\ length g1 = 4 /\ all_digits g1
    /\ length g2 = 4 /\ all_digits g2
    /\ length g3 = 3 /\ all_digits g3.

(** "Truncated or zero-padded to [n]": the first [n] characters of the
    digits followed by zeros. *)
Definition fit (n : nat) (digits : pystr) : pystr :=
  firstn n (digits ++ repeat "0"%char n).

(** The long-form output for a category and a digit source, in the words
    of section 4.1. *)
Definition spec_long_form (category digits : pystr) : pystr :=
  "AL001/" ++ category ++ "-" ++ fit 7 digits ++ "/" ++ fit 4 (skipn 7 digits).

(** The condition under which the normaliser takes its long-form branch. *)
Definition long_form_trigger (card_id : pystr) : bool :=
  startswith (clean card_id) "AL001" || startswith (clean card_id) "STE".


(** ** The sanitiser, in the spec's words *)

(** The sanitiser in the spec's words, character by character: a space
    becomes an underscore, a path-hostile character is dropped, any other
    character is kept as it is (letters keep their case). *)
Definition sanitize_char (c : ascii) : pystr :=
  if Ascii.eqb c " " then "_"
  else if path_hostile c then []
  else [c].

Definition spec_sanitize (name : pystr) : pystr :=
  firstn 100 (flat_map sanitize_char name).

Definition no_slash (s : pystr) : Prop := existsb (Ascii.eqb "/") s = false.

(** ** The display text, in the spec's words *)

(** The spec's "3 letters immediately followed by one or more digits and
    nothing else", with the regex's classes: [letters] and [digits] are
    the two captured groups. *)
Definition letters_then_digits (Card letters digits : pystr) : Prop :=
  Card = letters ++ digits
  /\ length letters = 3
  /\ Forall (fun c => is_ascii_letter c = true) letters
  /\ digits <> []
  /\ Forall (fun c => isdecimal c = true) digits.

(** The text drawn at the policy-number position, the first overlay. *)
Definition policy_no_text (im : image) : option pystr :=
  option_map text (hd_error (overlays im)).

(** ** Sample data *)

(** The two rows of the sample sheet, lines 44-50. *)
Definition john : row :=
  {| cName := Some (text_cell "John Doe");
     cCard := Some (text_cell "STE 12345 690 7890");
     cDate := Some (text_cell "2024-12-31");
     cVIP := Some (text_cell "Yes");
     cEmail := Some (text_cell "john@example.com") |}.

Definition jane : row :=
  {| cName := Some (text_cell "Jane Smith");
     cCard := Some (text_cell "CII 98765 432 1098");
     cDate := Some (text_cell "2025-01-15");
     cVIP := Some (text_cell "No");
     cEmail := Some (text_cell "jane@example.com") |}.

Definition card_only (Card : pystr) : row :=
  {| cName := None; cCard := Some (text_cell Card); cDate := None;
     cVIP := None; cEmail := None |}.

(** A row for which everything outside the program works. *)
Definition fair : outcomes :=
  {| path_exists := fun _ => true;
     image_open := fun _ => true;
     label_height := 14;
     image_save := fun _ => true;
     strftime := fun v => Some v;
     compose := true;
     smtp := None;
     smtp_quit := None;
     exn_str := fun _ => "cannot identify image file" |}.

(** The template image cannot be opened. *)
Definition unreadable_template : outcomes :=
  {| path_exists := fun _ => true;
     image_open := fun _ => false;
     label_height := 14;
     image_save := fun _ => true;
     strftime := fun v => Some v;
     compose := true;
     smtp := None;
     smtp_quit := None;
     exn_str := fun _ => "cannot identify image file" |}.

(** The mail server refuses the connection. *)
Definition mail_down : outcomes :=
  {| path_exists := fun _ => true;
     image_open := fun _ => true;
     label_height := 14;
     image_save := fun _ => true;
     strftime := fun v => Some v;
     compose := true;
     smtp := Some ("Connection refused" : pystr);
     smtp_quit := None;
     exn_str := fun _ => "cannot identify image file" |}.

(** The message is delivered, but the server does not answer QUIT by 221. *)
Definition quit_refused : outcomes :=
  {| path_exists := fun _ => true;
     image_open := fun _ => true;
     label_height := 14;
     image_save := fun _ => true;
     strftime := fun v => Some v;
     compose := true;
     smtp := None;
     smtp_quit := Some ("(421, b'closing')" : pystr);
     exn_str := fun _ => "cannot identify image file" |}.

(** The message cannot be built: the address holds a line break, and
    setting the header of line 127 raises. *)
Definition malformed_address : outcomes :=
  {| path_exists := fun _ => true;
     image_open := fun _ => true;
     label_height := 14;
     image_save := fun _ => true;
     strftime := fun v => Some v;
     compose := false;
     smtp := None;
     smtp_quit := None;
     exn_str := fun _ =>
       "Header values may not contain linefeed or carriage return characters" |}.

(** The first sample row with two addresses on two lines in its Email
    cell. *)
Definition john_two_lines : row :=
  {| cName := Some (text_cell "John Doe");
     cCard := Some (text_cell "STE 12345 690 7890");
     cDate := Some (text_cell "2024-12-31");
     cVIP := Some (text_cell "Yes");
     cEmail := Some (text_cell ("john@example.com" ++ newline :: "jd@example.com")) |}.

Definition world_of (w : nat -> outcomes) : world :=
  {| truetype := fun _ _ => true; at_row := w |}.

(** ** The claims on the resolver and on the batch, as the spec states them *)

(** C1 as the spec states it, for one row: whenever the cleaned identifier
    starts with [AL001] or [STE], the text drawn is the normaliser's
    output. *)
Definition resolver_delegates (r : row) : Prop :=
  long_form_trigger (row_Card r) = true ->
  forall (f : fonts) (o : outcomes),
    policy_no_text (draw_card f o r) = Some (format_card_id (row_Card r)).

(** Rendering succeeds for a row: the template opens and the card is
    saved. *)
Definition renders (folder : pystr) (o : outcomes) (r : row) : bool :=
  image_open o (row_template o r) && image_save o (row_filename folder r).

Definition row_artifact (f : fonts) (folder : pystr) (o : outcomes) (r : row)
    : pystr * image :=
  (row_filename folder r, draw_card f o r).

(** The artifacts of the rows of [df], the first of which is row [i]. *)
Fixpoint artifacts_from (f : fonts) (folder : pystr) (w : nat -> outcomes)
    (i : nat) (df : list row) : list (pystr * image) :=
  match df with
  | [] => []
  | r :: df' => row_artifact f folder (w i) r :: artifacts_from f folder w (S i) df'
  end.

(** C2 as the spec states it, for one batch: whenever rendering fails for
    a row, the batch still completes, the failure is logged, and every
    later row that can be rendered has its artifact saved. *)
Definition render_failures_isolated (w : world) (df : list row) (folder : pystr) : Prop :=
  forall k r,
    nth_error df k = Some r ->
    renders folder (at_row w k) r = false ->
    let '(res, st) := generate_cards_from_df w df folder init in
    res = inl tt
    /\ log st <> []
    /\ forall j r',
         k < j -> nth_error df j = Some r' ->
         renders folder (at_row w j) r' = true ->
         In (row_filename folder r') (map fst (saved st)).

(** C8 as the spec states it, for one batch whose rows all render:
    whenever the notification of a row with an address fails, while the
    message is built or in the mail session, the failure is logged, the
    batch still completes and the card of every row is saved. *)
Definition notification_failures_isolated (w : world) (df : list row)
    (folder : pystr) : Prop :=
  (forall j r', nth_error df j = Some r' -> renders folder (at_row w j) r' = true) ->
  forall k r e,
    nth_error df k = Some r ->
    row_email r = Some e -> e <> [] ->
    (compose (at_row w k) = false
     \/ smtp (at_row w k) <> None
     \/ smtp_quit (at_row w k) <> None) ->
    let '(res, st) := generate_cards_from_df w df folder init in
    res = inl tt
    /\ log st <> []
    /\ forall j r',
         nth_error df j = Some r' ->
         In (row_filename folder r') (map fst (saved st)).

(** Every row of [df], the first of which is row [i], is rendered and
    its message, if any, can be built. *)
Definition sound_from (folder : pystr) (w : nat -> outcomes) (i : nat)
    (df : list row) : Prop :=
  forall k r,
    nth_error df k = Some r ->
    renders folder (w (i + k)) r = true /\ compose (w (i + k)) = true.

(** * The rest of the program *)

(** ** Upload filter *)

(** [c in s] for a character. *)
Definition contains (c : ascii) (s : pystr) : bool := existsb (Ascii.eqb c) s.

(** The two parts of [s] around its last [sep], if there is one. *)
Fixpoint rpartition (sep : ascii) (s : pystr) : option (pystr * pystr) :=
  match s with
  | [] => None
  | c :: s' =>
      match rpartition sep s' with
      | Some (a, b) => Some (c :: a, b)
      | None => if Ascii.eqb c sep then Some ([], s') else None
      end
  end.

(** [s.rsplit(sep, 1)] for a one-character separator. *)
Definition rsplit1 (sep : ascii) (s : pystr) : list pystr :=
  match rpartition sep s with
  | Some (a, b) => [a; b]
  | None => [s]
  end.

(** Lines 54-55.  The index [[1]] is evaluated only when the name holds a
    dot; [None] stands for the [IndexError] it would raise otherwise. *)
Definition allowed_file (filename : pystr) : option bool :=
  if contains "." filename then
    match nth_error (rsplit1 "." filename) 1 with
    | Some ext => Some (pystr_eqb (lower ext) "xlsx")
    | None => None
    end
  else Some false.

(** ** The batch, row by row *)

(** The address a row is notified at: the Email cell, when it is there,
    not missing and not empty (lines 183 and 215). *)
Definition row_recipient (r : row) : option pystr :=
  match row_email r with
  | Some e => if negb (length e =? 0) then Some e else None
  | None => None
  end.

(** The message sent for a row: fixed subject, the fall-back plain body
    (the pipeline passes an empty body text), the fixed second attachment
    when [static/Redemption.jpg] is there, and the row's card when the
    saved file is still there. *)
Definition notification (folder : pystr) (o : outcomes) (r : row) (e : pystr) : message :=
  {| msg_to := e;
     msg_subject := "Your A-Member Card Awaits You";
     msg_body := "Please view this email in HTML format.";
     msg_attachments :=
       (if path_exists o "static/Redemption.jpg" then ["Redemption.jpg" : pystr] else [])
       ++ (if path_exists o (row_filename folder r)
           then [artifact_name (row_name r) (row_Card r)] else []) |}.

Definition set_saved (st : state) (l : list (pystr * image)) : state :=
  {| saved := l; sent := sent st; log := log st |}.

(** What one turn of the loop does, outcome by outcome. *)
Definition row_step (f : fonts) (folder : pystr) (o : outcomes) (r : row)
    (st : state) : (unit + exn) * state :=
  if negb (image_open o (row_template o r)) then
    (inr (OpenFailed (row_template o r)), st)
  else if negb (image_save o (row_filename folder r)) then
    (inr (SaveFailed (row_filename folder r)), st)
  else
    let st1 := set_saved st (saved st ++ [row_artifact f folder o r]) in
    match row_recipient r with
    | None => (inl tt, st1)
    | Some e =>
        if negb (compose o) then (inr ComposeFailed, st1)
        else match smtp o with
             | None =>
                 (inl tt,
                  {| saved := saved st1;
                     sent := sent st1 ++ [notification folder o r e];
                     log :=
                       match smtp_quit o with
                       | None => log st1 ++ [LogInfo ("Email sent to " ++ e)]
                       | Some t =>
                           (log st1 ++ [LogInfo ("Email sent to " ++ e)])
                           ++ [LogError ("SMTP send failed: " ++ t)]
                       end |})
             | Some t =>
                 (inl tt,
                  {| saved := saved st1;
                     sent := sent st1;
                     log := log st1 ++ [LogError ("SMTP send failed: " ++ t)] |})
             end
    end.

Definition is_info (e : log_entry) : bool :=
  match e with LogInfo _ => true | _ => false end.

Definition is_warning (e : log_entry) : bool :=
  match e with LogWarning _ => true | _ => false end.

(** [m] is the notification of a row of [df] (the first of which is row
    [i]) whose card was saved and whose delivery succeeded. *)
Definition notified (folder : pystr) (w : nat -> outcomes) (i : nat)
    (df : list row) (m : message) : Prop :=
  exists k r e,
    nth_error df k = Some r
    /\ row_recipient r = Some e
    /\ m = notification folder (w (i + k)) r e
    /\ renders folder (w (i + k)) r = true
    /\ compose (w (i + k)) = true
    /\ smtp (w (i + k)) = None.

(** The log lines the notification of a row leaves, once its card is
    saved: none without a recipient, and none when the message cannot be
    built; the error line of a session that failed before the message was
    handed over; otherwise the success line, followed by the error line
    of a session that could not be closed. *)
Definition delivery_log (o : outcomes) (r : row) : list log_entry :=
  match row_recipient r with
  | None => []
  | Some e =>
      if negb (compose o) then []
      else match smtp o with
           | Some t => [LogError ("SMTP send failed: " ++ t)]
           | None =>
               LogInfo ("Email sent to " ++ e)
               :: match smtp_quit o with
                  | None => []
                  | Some t => [LogError ("SMTP send failed: " ++ t)]
                  end
           end
  end.

(** The log lines of the rows of [df], the first of which is row [i]. *)
Fixpoint log_from (w : nat -> outcomes) (i : nat) (df : list row) : list log_entry :=
  match df with
  | [] => []
  | r :: df' => delivery_log (w i) r ++ log_from w (S i) df'
  end.

(** The same outcomes with another answer of the date parser. *)
Definition with_strftime (g : pystr -> option pystr) (o : outcomes) : outcomes :=
  {| path_exists := path_exists o;
     image_open := image_open o;
     label_height := label_height o;
     image_save := image_save o;
     strftime := g;
     compose := compose o;
     smtp := smtp o;
     smtp_quit := smtp_quit o;
     exn_str := exn_str o |}.

(** ** The packager *)

(** A directory: its files, by name, and its sub-directories. *)
#[local] Set Warnings "-register-all".
Inductive tree (A : Type) : Type :=
| Dir (files : list (pystr * A)) (dirs : list (pystr * tree A)).
Arguments Dir {A} files dirs.

(** [os.walk(top)], top-down: a directory, then its sub-directories. *)
Fixpoint os_walk {A} (top : pystr) (t : tree A) : list (pystr * list (pystr * A)) :=
  match t with
  | Dir files dirs =>
      (top, files)
      :: flat_map (fun d => os_walk (os_path_join top (fst d)) (snd d)) dirs
  end.

(** Lines 220-225: the entries written to the archive, as archive name and
    content of the file read. *)
Definition zip_folder {A} (folder_path : pystr) (t : tree A) : list (pystr * A) :=
  flat_map
    (fun walked =>
       flat_map
         (fun file =>
            if endswith (lower (fst file)) ".png" then [(fst file, snd file)] else [])
         (snd walked))
    (os_walk folder_path t).

(** Every file of a directory and of the directories below it. *)
Fixpoint all_files {A} (t : tree A) : list (pystr * A) :=
  match t with
  | Dir files dirs => files ++ flat_map (fun d => all_files (snd d)) dirs
  end.

Definition is_png {A} (file : pystr * A) : bool := endswith (lower (fst file)) ".png".

(** ** The JSON route *)

Inductive response : Type :=
| JsonError (status : nat) (error : pystr)         (* [{"error": ..}, status] *)
| SendFile (path : pystr) (download_name : pystr)  (* [send_file(..)] *)
| Redirect (flash : pystr)                         (* [flash(..)], [redirect] *)
| RenderTemplate (name : pystr).

(** A JSON object, as a Python [dict]: the keys in order of insertion. *)
Definition dict : Type := list (pystr * cell).

(** [key in d] *)
Definition dict_has (d : dict) (key : pystr) : bool :=
  existsb (fun kv => pystr_eqb (fst kv) key) d.

(** [d[key]], [None] for a [KeyError]. *)
Fixpoint dict_get (d : dict) (key : pystr) : option cell :=
  match d with
  | [] => None
  | (k, v) :: d' => if pystr_eqb k key then Some v else dict_get d' key
  end.

(** The one-row table of line 310: columns Name, Card and Date only. *)
Definition api_row (d : dict) : row :=
  {| cName := dict_get d "Name";
     cCard := dict_get d "Card";
     cDate := dict_get d "Date";
     cVIP := None;
     cEmail := None |}.

(** [os.listdir] of the fresh directory of [tempfile.mkdtemp()]: the names
    of the files written since the state [before]. *)
Definition listdir_fresh (before after : state) : list pystr :=
  map (fun file => os_path_basename (fst file))
    (skipn (length (saved before)) (saved after)).

(** Lines 303-316.  [data] is what [request.get_json()] returns, a JSON
    object or null; [tmpdir] is the directory [tempfile.mkdtemp()]
    creates. *)
Definition api_create_card (w : world) (data : option dict) (tmpdir : pystr)
    : M response :=
  match data with
  | None | Some [] => ret (JsonError 400 "No JSON payload provided")
  | Some d =>
      if negb (forallb (dict_has d) ["Name" : pystr; "Card" : pystr; "Date" : pystr])
      then ret (JsonError 400 "Missing fields: Name, Card, Date")
      else
        let df := [api_row d] in
        let output_folder := tmpdir in
        fun st =>
          match generate_cards_from_df w df output_folder st with
          | (inr e, st') => (inr e, st')
          | (inl _, st') =>
              match find (fun f => endswith f ".png") (listdir_fresh st st') with
              | Some f =>
                  (inl (SendFile (os_path_join output_folder f) "card.png"), st')
              | None =>
                  (inl (JsonError 500 "Card image not generated"), st')
              end
          end
  end.

(** ** The upload route *)

Definition UPLOAD_FOLDER : pystr := "uploads".
Definition OUTPUT_FOLDER : pystr := "web_cards".

Inductive http_method : Type := GET | POST.

(** The uploaded file: its name as the client sent it, whether
    [file.save] returns ([Some e]: it raises [e]), and what
    [pd.read_excel] makes of it: an exception, or a table with its number
    of columns and its rows. *)
Record upload : Type := {
  upload_filename : pystr;
  save_raises : option pystr;
  read_excel : pystr + (nat * list row)
}.

(** What the rest of the machine answers during one request. *)
Record site : Type := {
  makedirs_raises : option pystr;    (* [os.makedirs(OUTPUT_FOLDER)] *)
  tmp_zip : pystr + pystr;           (* the temporary archive: an exception,
                                        or its path *)
  format_exc : pystr;                (* [traceback.format_exc()] *)
  str_exn : exn -> pystr;            (* [str(e)] of a library's exception
                                        that left the pipeline *)
  dir_rank : pystr -> nat            (* the place of a file name in the
                                        file system's listing of a folder *)
}.

(** An exception in the route: one of the pipeline, the [IndexError] of
    [allowed_file], or one of a library, with its text. *)
Inductive web_exn : Type :=
| FromPipeline (e : exn)
| IndexError
| External (text : pystr).

Definition web_exn_text (s : site) (e : web_exn) : pystr :=
  match e with
  | FromPipeline e => exn_text (str_exn s) e
  | IndexError => "list index out of range"
  | External text => text
  end.

Inductive web_response : Type :=
| Plain (r : response)
| SendArchive (path : pystr) (entries : list (pystr * image)) (download_name : pystr).

(** A path inside [folder]. *)
Definition in_folder (folder path : pystr) : bool := startswith path (folder ++ "/").

(** [shutil.rmtree(folder, ignore_errors=True)] then [os.makedirs]: the
    files written into [folder] are gone. *)
Definition rmtree (folder : pystr) (st : state) : state :=
  set_saved st (filter (fun file => negb (in_folder folder (fst file))) (saved st)).

(** The files a sequence of writes leaves: a later write to a path
    replaces an earlier one. *)
Fixpoint latest (writes : list (pystr * image)) : list (pystr * image) :=
  match writes with
  | [] => []
  | file :: ws =>
      if existsb (fun other => pystr_eqb (fst other) (fst file)) ws
      then latest ws
      else file :: latest ws
  end.

(** The files of a folder in the order the file system lists them:
    sorted by the rank it gives their names. *)
Fixpoint listed (rank : pystr -> nat) (file : pystr * image)
    (files : list (pystr * image)) : list (pystr * image) :=
  match files with
  | [] => [file]
  | other :: files' =>
      if rank (fst file) <=? rank (fst other) then file :: files
      else other :: listed rank file files'
  end.

Definition listing (rank : pystr -> nat) (files : list (pystr * image))
    : list (pystr * image) :=
  fold_right (listed rank) [] files.

(** The folder as [zip_folder] finds it: flat, each file under its name,
    in the order of the file system, which is the order [os.walk] hands
    the names on in. *)
Definition folder_tree (s : site) (folder : pystr) (st : state) : tree image :=
  Dir (listing (dir_rank s)
         (map (fun file => (os_path_basename (fst file), snd file))
            (latest (filter (fun file => in_folder folder (fst file)) (saved st)))))
      [].

(** The body of the [try] of lines 256-284. *)
Definition index_try (w : world) (s : site) (u : upload) (st : state)
    : (web_response + web_exn) * state :=
  let st1 := rmtree OUTPUT_FOLDER st in
  match makedirs_raises s with
  | Some e => (inr (External e), st1)
  | None =>
      match save_raises u with
      | Some e => (inr (External e), st1)
      | None =>
          match read_excel u with
          | inl e => (inr (External e), st1)
          | inr (ncols, df) =>
              if ncols <? 3 then
                (inl (Plain (Redirect "File must have at least 3 columns")), st1)
              else
                match generate_cards_from_df w df OUTPUT_FOLDER st1 with
                | (inr e, st2) => (inr (FromPipeline e), st2)
                | (inl _, st2) =>
                    match tmp_zip s with
                    | inl e => (inr (External e), st2)
                    | inr zip_path =>
                        (inl (SendArchive zip_path
                                (zip_folder OUTPUT_FOLDER (folder_tree s OUTPUT_FOLDER st2))
                                "cards.zip"), st2)
                    end
                end
          end
      end
  end.

(** Lines 248-294. *)
Definition index (w : world) (s : site) (m : http_method) (file : option upload)
    (st : state) : (web_response + web_exn) * state :=
  match m with
  | GET => (inl (Plain (RenderTemplate "index.html")), st)
  | POST =>
      match file with
      | None => (inl (Plain (Redirect "No file uploaded")), st)
      | Some u =>
          if length (upload_filename u) =? 0 then
            (inl (Plain (Redirect "No file uploaded")), st)
          else
            match allowed_file (upload_filename u) with
            | None => (inr IndexError, st)
            | Some true =>
                match index_try w s u st with
                | (inl r, st') => (inl r, st')
                | (inr e, st') =>
                    (inl (Plain (Redirect ("Processing error: " ++ web_exn_text s e))),
                     {| saved := saved st'; sent := sent st';
                        log := log st' ++ [LogError (format_exc s)] |})
                end
            | Some false =>
                (inl (Plain (Redirect "Unsupported file type. Please upload an XLSX file.")),
                 st)
            end
      end
  end.

(** * Properties *)

(** ** Worked examples *)

Example format_card_id_sample1 :
  format_card_id "STE 12345 690 7890" = "AL001/STE-1234569/0789".
Proof. reflexivity. Qed.

Example format_card_id_sample2 :
  format_card_id "CII 98765 432 1098" = "CII-9876 5432 109".
Proof. reflexivity. Qed.

Example display_text_abc : display_text "ABC123" = "ABC 123".
Proof. reflexivity. Qed.

Example display_text_sample : display_text "STE 12345 690 7890" = "STE 12345 690 7890".
Proof. reflexivity. Qed.

(** ** Lemmas on strings *)

Lemma length_ljust width fill s :
  length (ljust width fill s) = Nat.max width (length s).
Proof.
  unfold ljust. rewrite length_app, repeat_length. lia.
Qed.

Lemma firstn_repeat (c : ascii) k n : firstn k (repeat c n) = repeat c (Nat.min k n).
Proof.
  revert n. induction k as [| k IH]; intros [| n]; simpl; try reflexivity.
  f_equal. apply IH.
Qed.

Lemma ljust_fit n (digits : pystr) :
  ljust n "0" (slice_to n digits) = fit n digits.
Proof.
  unfold ljust, slice_to, fit.
  rewrite firstn_app, length_firstn, firstn_repeat.
  do 2 f_equal. lia.
Qed.

Lemma ljust_fit_suffix (digits : pystr) :
  ljust 4 "0" (slice 7 11 digits) = fit 4 (skipn 7 digits).
Proof. exact (ljust_fit 4 (skipn 7 digits)). Qed.

Lemma all_digits_join_if s : all_digits (join_if isdigit s).
Proof.
  unfold all_digits, join_if. apply Forall_forall.
  intros c Hc. apply filter_In in Hc. tauto.
Qed.

Lemma all_digits_firstn n s : all_digits s -> all_digits (firstn n s).
Proof.
  unfold all_digits. intros H.
  rewrite <- (firstn_skipn n s) in H. apply Forall_app in H. tauto.
Qed.

Lemma all_digits_skipn n s : all_digits s -> all_digits (skipn n s).
Proof.
  unfold all_digits. intros H.
  rewrite <- (firstn_skipn n s) in H. apply Forall_app in H. tauto.
Qed.

Lemma all_digits_app s t : all_digits s -> all_digits t -> all_digits (s ++ t).
Proof. unfold all_digits. intros. apply Forall_app; auto. Qed.

Lemma all_digits_zeros n : all_digits (repeat "0"%char n).
Proof.
  unfold all_digits. apply Forall_forall.
  intros c Hc. apply repeat_spec in Hc. subst c. reflexivity.
Qed.

Lemma all_digits_fit n s : all_digits s -> all_digits (fit n s).
Proof.
  intros H. unfold fit.
  apply all_digits_firstn, all_digits_app; auto using all_digits_zeros.
Qed.

Lemma length_fit n s : length (fit n s) = n.
Proof.
  unfold fit. rewrite length_firstn, length_app, repeat_length. lia.
Qed.

Create HintDb digits.
#[local] Hint Resolve all_digits_join_if all_digits_firstn all_digits_skipn
  all_digits_fit all_digits_zeros all_digits_app : digits.

Lemma clean_idempotent s : clean (clean s) = clean s.
Proof.
  unfold clean, join_if. induction s as [| c s IH]; simpl; [reflexivity |].
  destruct (isalnum c) eqn:Hc; simpl; [rewrite Hc, IH |]; auto.
Qed.

Lemma clean_app s t : clean (s ++ t) = clean s ++ clean t.
Proof. unfold clean, join_if. apply filter_app. Qed.

Lemma startswith_app p s : startswith s p = true -> s = p ++ skipn (length p) s.
Proof.
  revert s. induction p as [| a p IH]; intros s H; simpl in *; [reflexivity |].
  destruct s as [| b s]; [discriminate |].
  apply andb_prop in H. destruct H as [Hab Hs].
  apply Ascii.eqb_eq in Hab. subst b. simpl. f_equal. auto.
Qed.

Lemma startswith_length p s : startswith s p = true -> length p <= length s.
Proof.
  intros H. apply startswith_app in H.
  rewrite H, length_app. lia.
Qed.

(** The normaliser with its branches told apart. *)
Lemma format_card_id_AL001 s :
  startswith (clean s) "AL001" = true ->
  format_card_id s =
    "AL001/" ++ (if 8 <=? length (clean s) then slice 5 8 (clean s) else "XXX")
      ++ "-" ++ fit 7 (join_if isdigit (slice_from 8 (clean s)))
      ++ "/" ++ fit 4 (skipn 7 (join_if isdigit (slice_from 8 (clean s)))).
Proof.
  intros H. unfold format_card_id. rewrite H. cbn [orb]. cbv beta iota zeta.
  rewrite ljust_fit, ljust_fit_suffix. reflexivity.
Qed.

Lemma format_card_id_STE s :
  startswith (clean s) "AL001" = false ->
  startswith (clean s) "STE" = true ->
  format_card_id s =
    "AL001/" ++ slice_to 3 (clean s)
      ++ "-" ++ fit 7 (join_if isdigit (slice_from 3 (clean s)))
      ++ "/" ++ fit 4 (skipn 7 (join_if isdigit (slice_from 3 (clean s)))).
Proof.
  intros H5 H3. unfold format_card_id. rewrite H5, H3. cbn [orb].
  cbv beta iota zeta. rewrite ljust_fit, ljust_fit_suffix. reflexivity.
Qed.

Lemma format_card_id_default s :
  long_form_trigger s = false ->
  format_card_id s =
    ljust 3 "X" (slice_to 3 (clean s)) ++ "-"
      ++ firstn 4 (fit 11 (join_if isdigit (clean s))) ++ " "
      ++ slice 4 8 (fit 11 (join_if isdigit (clean s))) ++ " "
      ++ slice 8 11 (fit 11 (join_if isdigit (clean s))).
Proof.
  unfold long_form_trigger. intros H. unfold format_card_id. rewrite H.
  cbv beta iota zeta. rewrite ljust_fit. reflexivity.
Qed.

(** ** The shape of the normaliser's output *)



Lemma length_category s :
  length (if 8 <=? length (clean s) then slice 5 8 (clean s) else ("XXX" : pystr)) = 3.
Proof.
  destruct (8 <=? length (clean s)) eqn:H; [| reflexivity].
  apply Nat.leb_le in H. unfold slice.
  rewrite length_firstn, length_skipn. lia.
Qed.


Lemma format_card_id_short s :
  long_form_trigger s = false -> default_form (format_card_id s).
Proof.
  intros H. rewrite (format_card_id_default s H).
  eexists _, _, _, _. split; [reflexivity |].
  unfold slice, slice_to.
  rewrite length_ljust, !length_firstn, !length_skipn, !length_fit.
  repeat split; auto with digits; lia.
Qed.



(** C6. The empty identifier falls to the default family:
    [format_card_id("")] is [XXX-0000 0000 000]. *)
Theorem format_card_id_empty :
  format_card_id "" = "XXX-0000 0000 000"
  /\ long_form_trigger "" = false
  /\ default_form (format_card_id "").
Proof.
  split; [reflexivity |]. split; [reflexivity |].
  apply format_card_id_short. reflexivity.
Qed.

(** C5. When the cleaned identifier starts with [AL001], the category is
    [cleaned[5:8]] if the cleaned string has at least 8 characters and
    [XXX] otherwise, the digit source is the digits of [cleaned[8:]], the
    numbers field is its first 7 digits zero-padded to 7, the suffix its
    digits 7..11 zero-padded to 4, and the output is
    [AL001/category-numbers/suffix]. *)
Theorem format_card_id_scheme_prefix (s : pystr) :
  startswith (clean s) "AL001" = true ->
  let cleaned := clean s in
  let category : pystr := if 8 <=? length cleaned then slice 5 8 cleaned else "XXX" in
  let digits := filter isdigit (skipn 8 cleaned) in
  let numbers := firstn 7 digits ++ repeat "0"%char (7 - length (firstn 7 digits)) in
  let suffix := slice 7 11 digits ++ repeat "0"%char (4 - length (slice 7 11 digits)) in
  format_card_id s = "AL001/" ++ category ++ "-" ++ numbers ++ "/" ++ suffix
  /\ format_card_id s = spec_long_form category digits
  /\ length category = 3 /\ length numbers = 7 /\ length suffix = 4.
Proof.
  intros H cleaned category digits numbers suffix.
  assert (Hn : numbers = fit 7 digits) by apply ljust_fit.
  assert (Hs : suffix = fit 4 (skipn 7 digits)) by apply ljust_fit_suffix.
  rewrite Hn, Hs, !length_fit.
  repeat split; try apply (format_card_id_AL001 s H).
  apply length_category.
Qed.

Lemma format_card_id_scheme_prefix_witness :
  format_card_id "AL001-999 7890012345" = "AL001/999-7890012/3450".
Proof.
  exact (proj1 (format_card_id_scheme_prefix "AL001-999 7890012345" eq_refl)).
Defined.

(** C4. When the cleaned identifier starts with [STE] it does not start
    with [AL001]; the normaliser emits the fixed prefix [AL001], the first
    3 cleaned characters (the carrier code itself) as category, then the
    digits of [cleaned[3:]] truncated or zero-padded to 7 and to 4.  In
    particular [format_card_id("STE12345690123")] is
    [AL001/STE-1234569/0123]. *)
Theorem format_card_id_carrier_code :
  (forall s : pystr,
     startswith (clean s) "STE" = true ->
     let cleaned := clean s in
     let digits := filter isdigit (skipn 3 cleaned) in
     startswith cleaned "AL001" = false
     /\ firstn 3 cleaned = "STE"
     /\ format_card_id s = spec_long_form (firstn 3 cleaned) digits
     /\ format_card_id s =
          "AL001/" ++ "STE" ++ "-" ++ fit 7 digits ++ "/" ++ fit 4 (skipn 7 digits))
  /\ format_card_id "STE12345690123" = "AL001/STE-1234569/0123".
Proof.
  split; [| reflexivity].
  intros s H cleaned digits.
  pose proof (startswith_app _ _ H) as Happ. fold cleaned in Happ.
  assert (H5 : startswith cleaned "AL001" = false) by (rewrite Happ; reflexivity).
  assert (H3 : firstn 3 cleaned = "STE") by (rewrite Happ; reflexivity).
  split; [exact H5 |]. split; [exact H3 |].
  rewrite <- H3.
  split; apply (format_card_id_STE s H5 H).
Qed.

Lemma format_card_id_carrier_code_witness :
  format_card_id "STE 12345 690 7890" = "AL001/STE-1234569/0789".
Proof.
  exact (proj2 (proj2 (proj2
    (proj1 format_card_id_carrier_code "STE 12345 690 7890" eq_refl)))).
Defined.

(** C10. The normaliser depends only on the alphanumeric characters of its
    input: the output for [s] is the output for [s] with every
    non-alphanumeric character removed, so inserting or deleting such a
    character anywhere leaves the output unchanged. *)
Theorem format_card_id_ignores_punctuation :
  (forall s : pystr, format_card_id s = format_card_id (clean s))
  /\ (forall (s t : pystr) (c : ascii),
        isalnum c = false ->
        format_card_id (s ++ c :: t) = format_card_id (s ++ t)).
Proof.
  assert (E : forall s t, clean s = clean t -> format_card_id s = format_card_id t).
  { intros s t H. unfold format_card_id. rewrite H. reflexivity. }
  split.
  - intros s. apply E. symmetry. apply clean_idempotent.
  - intros s t c Hc. apply E. rewrite !clean_app. f_equal.
    unfold clean, join_if. simpl. rewrite Hc. reflexivity.
Qed.

Lemma format_card_id_ignores_punctuation_witness :
  format_card_id ("STE 123" ++ "-"%char :: "45") = format_card_id ("STE 123" ++ "45").
Proof.
  exact (proj2 format_card_id_ignores_punctuation "STE 123" "45" "-"%char eq_refl).
Defined.

(** ** File names *)

Lemma sanitize_filename_spec name : sanitize_filename name = spec_sanitize name.
Proof.
  unfold sanitize_filename, spec_sanitize, slice_to, re_sub_delete, replace_char.
  f_equal. induction name as [| c name IH]; [reflexivity |].
  cbn [map filter flat_map]. rewrite IH. unfold sanitize_char.
  destruct (Ascii.eqb c " ") eqn:Hsp; [reflexivity |].
  destruct (path_hostile c); reflexivity.
Qed.

Lemma sanitize_filename_clean name :
  Forall (fun c => path_hostile c = false /\ c <> " "%char) (sanitize_filename name).
Proof.
  unfold sanitize_filename, slice_to, re_sub_delete.
  apply Forall_forall. intros c Hc.
  assert (Hin : In c (filter (fun c => negb (path_hostile c))
                        (replace_char " " "_" name))).
  { rewrite <- (firstn_skipn 100). apply in_or_app. left. exact Hc. }
  apply filter_In in Hin. destruct Hin as [Hin Hh].
  apply negb_true_iff in Hh. split; [exact Hh |].
  unfold replace_char in Hin. apply in_map_iff in Hin.
  destruct Hin as (c0 & Hc0 & _).
  destruct (Ascii.eqb c0 " ") eqn:E; [subst c; discriminate |].
  subst c0. intros ->. discriminate.
Qed.

Lemma sanitize_filename_length name : length (sanitize_filename name) <= 100.
Proof.
  unfold sanitize_filename, slice_to. rewrite length_firstn. lia.
Qed.

Lemma sanitize_filename_no_slash name : no_slash (sanitize_filename name).
Proof.
  unfold no_slash. pose proof (sanitize_filename_clean name) as H.
  induction H as [| c l [Hc _] _ IH]; [reflexivity |].
  cbn [existsb]. rewrite IH.
  destruct (Ascii.eqb "/" c) eqn:E; [| reflexivity].
  apply Ascii.eqb_eq in E. subst c. discriminate.
Qed.

Lemma no_slash_app s t : no_slash s -> no_slash t -> no_slash (s ++ t).
Proof.
  unfold no_slash. intros Hs Ht. rewrite existsb_app, Hs, Ht. reflexivity.
Qed.

Lemma artifact_name_no_slash name Card : no_slash (artifact_name name Card).
Proof.
  unfold artifact_name.
  repeat apply no_slash_app; try apply sanitize_filename_no_slash; reflexivity.
Qed.

Lemma basename_no_slash b : no_slash b -> os_path_basename b = b.
Proof.
  unfold no_slash. destruct b as [| c b]; [reflexivity |].
  cbn [existsb os_path_basename]. intros H.
  apply orb_false_iff in H. destruct H as [Hc Hb].
  rewrite Hb. rewrite Ascii.eqb_sym, Hc. reflexivity.
Qed.

Lemma basename_after_slash a b :
  no_slash b -> os_path_basename (a ++ "/"%char :: b) = b.
Proof.
  unfold no_slash. intros Hb. induction a as [| c a IH].
  - cbn. rewrite Hb. reflexivity.
  - cbn [app os_path_basename]. rewrite existsb_app.
    cbn [existsb]. rewrite Ascii.eqb_refl, orb_true_r. exact IH.
Qed.

Lemma endswith_slash a : endswith a "/" = true -> exists a', a = a' ++ ["/"%char].
Proof.
  unfold endswith. intros H. apply startswith_app in H. cbn in H.
  exists (rev (skipn 1 (rev a))).
  rewrite <- (rev_involutive a) at 1. rewrite H. reflexivity.
Qed.

Lemma startswith_slash b : no_slash b -> startswith b "/" = false.
Proof.
  unfold no_slash. destruct b as [| c b]; [reflexivity |].
  cbn. intros H. apply orb_false_iff in H. destruct H as [H _].
  rewrite H. reflexivity.
Qed.

Lemma os_path_join_basename a b :
  no_slash b -> os_path_basename (os_path_join a b) = b.
Proof.
  intros Hb. unfold os_path_join. rewrite (startswith_slash b Hb).
  destruct a as [| c a].
  - cbn. apply basename_no_slash, Hb.
  - cbn [orb]. destruct (endswith (c :: a) "/") eqn:E.
    + apply endswith_slash in E. destruct E as [a' ->].
      rewrite <- app_assoc. apply basename_after_slash, Hb.
    + apply (basename_after_slash (c :: a) b Hb).
Qed.

Lemma startswith_prefix p t : startswith (p ++ t) p = true.
Proof.
  induction p as [| c p IH]; [reflexivity |].
  cbn. rewrite Ascii.eqb_refl. exact IH.
Qed.

Lemma endswith_app a b suf : endswith b suf = true -> endswith (a ++ b) suf = true.
Proof.
  unfold endswith. intros H. apply startswith_app in H.
  rewrite rev_app_distr, H, <- app_assoc. apply startswith_prefix.
Qed.

Lemma os_path_join_endswith a b suf :
  no_slash b -> endswith b suf = true -> endswith (os_path_join a b) suf = true.
Proof.
  intros Hb H. unfold os_path_join. rewrite (startswith_slash b Hb).
  destruct (_ || _); [| rewrite app_assoc]; apply endswith_app, H.
Qed.

Lemma artifact_name_png name Card : endswith (artifact_name name Card) ".png" = true.
Proof.
  unfold artifact_name. rewrite !app_assoc. apply endswith_app. reflexivity.
Qed.

(** ** White space, prefixes and the regex *)

Lemma isspace_not_alnum c : isspace c = true -> isalnum c = false.
Proof.
  destruct c as [b0 b1 b2 b3 b4 b5 b6 b7].
  destruct b0, b1, b2, b3, b4, b5, b6, b7; vm_compute; congruence.
Qed.

Lemma clean_dropwhile_space s : clean (dropwhile isspace s) = clean s.
Proof.
  induction s as [| c s IH]; [reflexivity |].
  cbn [dropwhile]. destruct (isspace c) eqn:Hc; [| reflexivity].
  rewrite IH. unfold clean, join_if. cbn [filter].
  rewrite (isspace_not_alnum c Hc). reflexivity.
Qed.

Lemma clean_rev s : clean (rev s) = rev (clean s).
Proof. unfold clean, join_if. apply filter_rev. Qed.

Lemma clean_strip s : clean (strip s) = clean s.
Proof.
  unfold strip, lstrip, rstrip.
  rewrite clean_dropwhile_space, clean_rev, clean_dropwhile_space, clean_rev.
  apply rev_involutive.
Qed.

Lemma format_card_id_strip s : format_card_id (strip s) = format_card_id s.
Proof. unfold format_card_id. rewrite clean_strip. reflexivity. Qed.

Lemma startswith_clean s p :
  forallb isalnum p = true -> startswith s p = true -> startswith (clean s) p = true.
Proof.
  revert s. induction p as [| a p IH]; intros s Hp H; [reflexivity |].
  destruct s as [| b s]; [discriminate |].
  cbn in Hp, H. apply andb_prop in Hp. destruct Hp as [Ha Hp].
  apply andb_prop in H. destruct H as [Hab H].
  apply Ascii.eqb_eq in Hab. subst b.
  unfold clean, join_if. cbn [filter]. rewrite Ha.
  cbn. rewrite Ascii.eqb_refl. apply IH; assumption.
Qed.

Lemma dropwhile_suffix p s : exists pre, s = pre ++ dropwhile p s.
Proof.
  induction s as [| c s [pre IH]]; [exists []; reflexivity |].
  cbn. destruct (p c).
  - exists (c :: pre). cbn. f_equal. exact IH.
  - exists []. reflexivity.
Qed.

Lemma dropwhile_head p s c t : dropwhile p s = c :: t -> p c = false.
Proof.
  induction s as [| a s IH]; [discriminate |].
  cbn. destruct (p a) eqn:Ha; [exact IH |].
  intros E. injection E as -> _. exact Ha.
Qed.

Lemma takewhile_dropwhile p s : takewhile p s ++ dropwhile p s = s.
Proof.
  induction s as [| c s IH]; [reflexivity |].
  cbn. destruct (p c); [cbn; f_equal; exact IH | reflexivity].
Qed.

Lemma takewhile_forall p s : Forall (fun c => p c = true) (takewhile p s).
Proof.
  induction s as [| c s IH]; [constructor |].
  cbn. destruct (p c) eqn:Hc; constructor; assumption.
Qed.

Lemma takewhile_all p s : Forall (fun c => p c = true) s -> takewhile p s = s.
Proof.
  induction 1 as [| c s Hc _ IH]; [reflexivity |].
  cbn. rewrite Hc, IH. reflexivity.
Qed.

Lemma dropwhile_all p s : Forall (fun c => p c = true) s -> dropwhile p s = [].
Proof.
  induction 1 as [| c s Hc _ IH]; [reflexivity |].
  cbn. rewrite Hc. exact IH.
Qed.

Lemma forallb_Forall (p : ascii -> bool) s :
  forallb p s = true <-> Forall (fun c => p c = true) s.
Proof. rewrite forallb_forall, Forall_forall. reflexivity. Qed.

(** A stripped string does not end in white space. *)
Lemma strip_last s t c : strip s = t ++ [c] -> isspace c = false.
Proof.
  unfold strip, lstrip, rstrip. intros H.
  destruct (dropwhile_suffix isspace (rev (dropwhile isspace (rev s))))
    as [pre Hpre].
  rewrite H in Hpre. apply (f_equal (@rev ascii)) in Hpre.
  rewrite rev_involutive, app_assoc, rev_app_distr in Hpre. cbn in Hpre.
  exact (dropwhile_head _ _ _ _ Hpre).
Qed.

Lemma pystr_eqb_eq s t : pystr_eqb s t = true <-> s = t.
Proof.
  unfold pystr_eqb. destruct (list_eq_dec ascii_dec s t); split; congruence.
Qed.

(** The regex matches exactly the strings of the shape, and those followed
    by one newline. *)
Lemma re_match_card_shape Card letters digits :
  letters_then_digits Card letters digits ->
  re_match_card Card = Some (letters, digits).
Proof.
  intros (-> & Hlen & Hl & Hne & Hd). unfold re_match_card.
  rewrite firstn_app, skipn_app, Hlen, Nat.sub_diag.
  rewrite <- Hlen, firstn_all, skipn_all. cbn [firstn skipn]. rewrite !app_nil_r.
  cbn [app]. rewrite (takewhile_all _ _ Hd), (dropwhile_all _ _ Hd).
  rewrite Nat.eqb_refl. apply forallb_Forall in Hl. rewrite Hl.
  destruct digits; [congruence | reflexivity].
Qed.

Lemma re_match_card_some Card g1 g2 :
  re_match_card Card = Some (g1, g2) ->
  letters_then_digits (g1 ++ g2) g1 g2
  /\ (Card = g1 ++ g2 \/ Card = (g1 ++ g2) ++ [newline]).
Proof.
  unfold re_match_card.
  pose proof (firstn_skipn 3 Card) as HC.
  pose proof (takewhile_dropwhile isdecimal (skipn 3 Card)) as HT.
  pose proof (takewhile_forall isdecimal (skipn 3 Card)) as HF.
  set (l := firstn 3 Card) in *. set (r := skipn 3 Card) in *.
  set (d := takewhile isdecimal r) in *. set (tl := dropwhile isdecimal r) in *.
  clearbody tl d. clearbody r l.
  destruct (length l =? 3) eqn:Hlen; [| discriminate].
  destruct (forallb is_ascii_letter l) eqn:Hl; [| discriminate].
  destruct (length d =? 0) eqn:Hd; [discriminate |].
  destruct (pystr_eqb tl [] || pystr_eqb tl [newline]) eqn:Ht; [| discriminate].
  cbn [andb negb]. intros E. injection E as <- <-.
  apply Nat.eqb_eq in Hlen. apply Nat.eqb_neq in Hd.
  apply forallb_Forall in Hl.
  split.
  - repeat split; auto. intros ->. apply Hd. reflexivity.
  - apply orb_prop in Ht. destruct Ht as [Ht | Ht]; apply pystr_eqb_eq in Ht;
      subst tl.
    + left. rewrite app_nil_r in HT. subst r. symmetry. exact HC.
    + right. rewrite <- app_assoc. subst r. symmetry. exact HC.
Qed.

(** ** The text drawn on the card *)

Lemma policy_no_text_draw_card f o r :
  policy_no_text (draw_card f o r) = Some (display_text (row_Card r)).
Proof. reflexivity. Qed.

Lemma startswith_AL001_trigger Card :
  startswith Card "AL001" = true -> long_form_trigger Card = true.
Proof.
  intros H. unfold long_form_trigger.
  rewrite (startswith_clean Card "AL001" eq_refl H). reflexivity.
Qed.

(** C1, counterexample.  The identifier of the sample sheet cleans to a
    string starting with [STE], yet the card shows it verbatim; the same
    digits without spaces are shown split after the letters; and an
    identifier that starts with [AL001] only once cleaned is shown
    verbatim too. *)
Lemma resolver_delegates_fails :
  ~ resolver_delegates john
  /\ ~ resolver_delegates (card_only "STE12345690123")
  /\ ~ resolver_delegates (card_only "AL-001 ABC 1234567 8901").
Proof.
  repeat split; intros H;
    specialize (H eq_refl (load_fonts (world_of (fun _ => fair))) fair);
    vm_compute in H; discriminate H.
Qed.

Lemma display_text_no_scheme_prefix (r : row) :
  startswith (row_Card r) "AL001" = false ->
  (forall letters digits,
     letters_then_digits (row_Card r) letters digits ->
     display_text (row_Card r) = letters ++ " " ++ digits)
  /\ ((forall letters digits, ~ letters_then_digits (row_Card r) letters digits) ->
      display_text (row_Card r) = row_Card r).
Proof.
  intros H5. unfold display_text. rewrite H5. split.
  - intros letters digits Hs. rewrite (re_match_card_shape _ _ _ Hs). reflexivity.
  - intros Hn. destruct (re_match_card (row_Card r)) as [[g1 g2] |] eqn:E;
      [| reflexivity].
    apply re_match_card_some in E. destruct E as [Hs [E | E]].
    + exfalso. apply (Hn g1 g2). rewrite E. exact Hs.
    + apply strip_last in E. discriminate E.
Qed.

Lemma startswith_STE_not_AL001 (Card : pystr) :
  startswith (clean Card) "STE" = true -> startswith Card "AL001" = false.
Proof.
  intros H. destruct (startswith Card "AL001") eqn:E; [| reflexivity].
  apply (startswith_clean Card "AL001" eq_refl) in E.
  apply startswith_app in E. apply startswith_app in H.
  rewrite E in H. discriminate H.
Qed.

(** C1, amended.  When the identifier of a row, as extracted (white space
    stripped, nothing else removed), itself starts with [AL001], the text
    drawn on the card is the normaliser's output for it, which is also
    the normaliser's output for the unstripped cell.  Every other
    identifier is not passed to the normaliser: when it is exactly 3
    letters followed by one or more digits, the text drawn is the
    letters, one space and the digits; otherwise the text drawn is the
    identifier unchanged.  The identifiers whose cleaned form starts with
    [STE] are among these, as are those that start with [AL001] only once
    cleaned. *)
Theorem display_text_scheme_prefix (f : fonts) (o : outcomes) (r : row) :
  (startswith (row_Card r) "AL001" = true ->
     policy_no_text (draw_card f o r) = Some (format_card_id (row_Card r))
     /\ format_card_id (row_Card r)
        = format_card_id (str_of (get (cCard r) (text_cell "Unknown")))
     /\ long_form_trigger (row_Card r) = true)
  /\ (startswith (row_Card r) "AL001" = false ->
        (forall letters digits,
           letters_then_digits (row_Card r) letters digits ->
           policy_no_text (draw_card f o r) = Some (letters ++ " " ++ digits))
        /\ ((forall letters digits, ~ letters_then_digits (row_Card r) letters digits) ->
            policy_no_text (draw_card f o r) = Some (row_Card r)))
  /\ (startswith (clean (row_Card r)) "STE" = true ->
        startswith (row_Card r) "AL001" = false).
Proof.
  rewrite policy_no_text_draw_card. split; [| split].
  - intros H. unfold display_text. rewrite H.
    split; [reflexivity |]. split.
    + apply format_card_id_strip.
    + apply startswith_AL001_trigger, H.
  - intros H. destruct (display_text_no_scheme_prefix r H) as [Hs Hn]. split.
    + intros letters digits Hl. rewrite (Hs letters digits Hl). reflexivity.
    + intros Hl. rewrite (Hn Hl). reflexivity.
  - apply startswith_STE_not_AL001.
Qed.

Lemma display_text_scheme_prefix_witness :
  policy_no_text (draw_card (load_fonts (world_of (fun _ => fair))) fair
                    (card_only " AL001-ABC 1234567 8901 "))
  = Some ("AL001/ABC-1234567/8901" : pystr)
  /\ policy_no_text (draw_card (load_fonts (world_of (fun _ => fair))) fair
                       (card_only "STE12345690123"))
     = Some ("STE 12345690123" : pystr)
  /\ policy_no_text (draw_card (load_fonts (world_of (fun _ => fair))) fair john)
     = Some ("STE 12345 690 7890" : pystr)
  /\ startswith (row_Card john) "AL001" = false.
Proof.
  split; [| split; [| split]].
  - exact (proj1 (proj1 (display_text_scheme_prefix _ fair
                           (card_only " AL001-ABC 1234567 8901 ")) eq_refl)).
  - refine (proj1 (proj1 (proj2 (display_text_scheme_prefix _ fair
                                   (card_only "STE12345690123"))) eq_refl)
              "STE" "12345690123" _).
    repeat split; try discriminate; repeat constructor.
  - refine (proj2 (proj1 (proj2 (display_text_scheme_prefix _ fair john)) eq_refl) _).
    intros letters digits (E & Hlen & _ & _ & Hd).
    destruct letters as [| a [| b [| c [| ? ?]]]]; try discriminate Hlen.
    vm_compute in E. injection E as _ _ _ E. subst digits.
    inversion Hd as [| ? ? Hsp _]. discriminate Hsp.
  - exact (proj2 (proj2 (display_text_scheme_prefix
                           (load_fonts (world_of (fun _ => fair))) fair john)) eq_refl).
Defined.

(** C7. For a row whose identifier does not trigger the long-form family:
    if the identifier is exactly 3 letters followed by one or more digits,
    the text drawn is the letters, one space, and the digits as they are;
    otherwise the text drawn is the identifier unchanged.  The identifier
    is the one the pipeline extracts, not the cleaned one. *)
Theorem display_text_short_identifier (f : fonts) (o : outcomes) (r : row) :
  long_form_trigger (row_Card r) = false ->
  policy_no_text (draw_card f o r) = Some (display_text (row_Card r))
  /\ (forall letters digits,
        letters_then_digits (row_Card r) letters digits ->
        display_text (row_Card r) = letters ++ " " ++ digits)
  /\ ((forall letters digits, ~ letters_then_digits (row_Card r) letters digits) ->
      display_text (row_Card r) = row_Card r).
Proof.
  intros H. split; [reflexivity |].
  assert (H5 : startswith (row_Card r) "AL001" = false).
  { destruct (startswith (row_Card r) "AL001") eqn:E; [| reflexivity].
    rewrite (startswith_AL001_trigger _ E) in H. discriminate. }
  exact (display_text_no_scheme_prefix r H5).
Qed.

Lemma display_text_short_identifier_witness :
  display_text (row_Card (card_only "ABC123")) = "ABC 123"
  /\ display_text (row_Card jane) = row_Card jane.
Proof.
  split.
  - refine (proj1 (proj2 (display_text_short_identifier
              (load_fonts (world_of (fun _ => fair))) fair
              (card_only "ABC123") eq_refl)) "ABC" "123" _).
    repeat split; try discriminate; repeat constructor.
  - refine (proj2 (proj2 (display_text_short_identifier
              (load_fonts (world_of (fun _ => fair))) fair jane eq_refl)) _).
    intros letters digits (E & Hlen & _ & _ & Hd).
    destruct letters as [| a [| b [| c [| ? ?]]]]; try discriminate Hlen.
    vm_compute in E. injection E as _ _ _ E. subst digits.
    inversion Hd as [| ? ? Hsp _]. discriminate Hsp.
Defined.

(** ** The sink and the batch *)

Lemma build_message_returns o to_email subject body_text att st :
  compose o = true ->
  exists msg st1,
    build_message o to_email subject body_text att st = (inl msg, st1)
    /\ saved st1 = saved st
    /\ sent st1 = sent st
    /\ incl (log st) (log st1).
Proof.
  intros Hc. unfold build_message. rewrite Hc. cbn [negb].
  destruct att as [p |];
    [destruct (negb (length p =? 0) && path_exists o p);
       [destruct (negb (pystr_eqb (lower (os_path_basename p)) "emailbody.jpg")) |] |];
    cbn; eexists _, _; (split; [reflexivity |]); cbn;
    repeat split; try apply incl_refl.
  apply incl_appl, incl_refl.
Qed.

Lemma send_email_with_attachment_returns o to_email subject body_text att st :
  compose o = true ->
  exists st',
    send_email_with_attachment o to_email subject body_text att st = (inl tt, st')
    /\ saved st' = saved st
    /\ incl (log st) (log st')
    /\ (forall t,
          smtp o = Some t \/ (smtp o = None /\ smtp_quit o = Some t) ->
          In (LogError ("SMTP send failed: " ++ t)) (log st')).
Proof.
  intros Hc.
  destruct (build_message_returns o to_email subject body_text att st Hc)
    as (msg & st1 & Hb & Hsaved & _ & Hlog).
  unfold send_email_with_attachment. unfold bind at 1. rewrite Hb.
  unfold try_except, bind, smtp_session, smtp_close, deliver, logging, ret, raise.
  destruct (smtp o) as [t |]; [| destruct (smtp_quit o) as [t |]];
    cbn; eexists; (split; [reflexivity |]); cbn;
    (split; [exact Hsaved |]);
    (split; [repeat apply incl_appl; exact Hlog |]).
  - intros t' [E | [E _]]; [| discriminate E]. injection E as <-.
    apply in_or_app. right. left. reflexivity.
  - intros t' [E | [_ E]]; [discriminate E |]. injection E as <-.
    apply in_or_app. right. left. reflexivity.
  - intros t' [E | [_ E]]; discriminate E.
Qed.

Lemma process_row_render_fails f folder o r st :
  renders folder o r = false ->
  exists e,
    process_row f folder o r st = (inr e, st)
    /\ (e = OpenFailed (row_template o r) \/ e = SaveFailed (row_filename folder r)).
Proof.
  unfold renders, process_row, bind, ret, raise. intros H.
  destruct (image_open o (row_template o r)).
  - cbn [andb] in H. rewrite H. eexists. split; [reflexivity | right; reflexivity].
  - eexists. split; [reflexivity | left; reflexivity].
Qed.

Lemma process_row_returns f folder o r st :
  renders folder o r = true -> compose o = true ->
  exists st',
    process_row f folder o r st = (inl tt, st')
    /\ saved st' = saved st ++ [row_artifact f folder o r]
    /\ incl (log st) (log st')
    /\ (forall e t, row_email r = Some e -> e <> [] ->
          smtp o = Some t \/ (smtp o = None /\ smtp_quit o = Some t) ->
          In (LogError ("SMTP send failed: " ++ t)) (log st')).
Proof.
  unfold renders. intros H Hc. apply andb_prop in H. destruct H as [Ho Hs].
  unfold process_row, bind at 1 2, ret at 1, write_file. rewrite Ho, Hs.
  cbv beta iota zeta.
  match goal with
  | |- context [match row_email r with _ => _ end ?s] => set (st1 := s)
  end.
  destruct (row_email r) as [e |] eqn:He.
  - destruct (negb (length e =? 0)) eqn:Hne.
    + destruct (send_email_with_attachment_returns o e "Your A-Member Card Awaits You"
                  "" (Some (row_filename folder r)) st1 Hc)
        as (st' & Hrun & Hsaved & Hlog & Herr).
      exists st'. split; [exact Hrun |]. split; [exact Hsaved |].
      split; [exact Hlog |].
      intros e' t E _ Ht. apply Herr, Ht.
    + exists st1. split; [reflexivity |]. split; [reflexivity |].
      split; [apply incl_refl |].
      intros e' t E Hnil _. injection E as <-.
      destruct e; [congruence | discriminate Hne].
  - exists st1. split; [reflexivity |]. split; [reflexivity |].
    split; [apply incl_refl |]. intros e t E. discriminate E.
Qed.

Section Batch.

Variable f : fonts.
Variable folder : pystr.
Variable w : nat -> outcomes.

Lemma sound_from_cons i r df :
  sound_from folder w i (r :: df) ->
  (renders folder (w i) r = true /\ compose (w i) = true)
  /\ sound_from folder w (S i) df.
Proof.
  intros H. split.
  - rewrite <- (Nat.add_0_r i). apply (H 0 r). reflexivity.
  - intros k r' Hk. rewrite Nat.add_succ_l, <- Nat.add_succ_r.
    apply (H (S k) r'). exact Hk.
Qed.

Lemma iterrows_returns df : forall i st,
  sound_from folder w i df ->
  exists st',
    iterrows (process_row f folder) w i df st = (inl tt, st')
    /\ saved st' = saved st ++ artifacts_from f folder w i df
    /\ incl (log st) (log st')
    /\ (forall k r e t,
          nth_error df k = Some r -> row_email r = Some e -> e <> [] ->
          smtp (w (i + k)) = Some t
          \/ (smtp (w (i + k)) = None /\ smtp_quit (w (i + k)) = Some t) ->
          In (LogError ("SMTP send failed: " ++ t)) (log st')).
Proof.
  induction df as [| r df IH]; intros i st Hs.
  - exists st. cbn. rewrite app_nil_r.
    repeat split; [apply incl_refl |].
    intros [| k] r e t E; discriminate E.
  - apply sound_from_cons in Hs. destruct Hs as [[Hr Hc] Hs].
    destruct (process_row_returns f folder (w i) r st Hr Hc)
      as (st1 & Hrun1 & Hsaved1 & Hlog1 & Herr1).
    destruct (IH (S i) st1 Hs) as (st2 & Hrun2 & Hsaved2 & Hlog2 & Herr2).
    exists st2. cbn [iterrows artifacts_from]. unfold bind at 1.
    rewrite Hrun1. split; [exact Hrun2 |].
    split; [rewrite Hsaved2, Hsaved1, <- app_assoc; reflexivity |].
    split; [eapply incl_tran; eassumption |].
    intros [| k] r' e t Hk He Hne Ht.
    + injection Hk as <-. rewrite Nat.add_0_r in Ht.
      apply Hlog2. eapply Herr1; eassumption.
    + rewrite Nat.add_succ_r, <- Nat.add_succ_l in Ht.
      eapply Herr2; eassumption.
Qed.

Lemma iterrows_app pre post : forall i st,
  iterrows (process_row f folder) w i (pre ++ post) st =
    match iterrows (process_row f folder) w i pre st with
    | (inl _, st') => iterrows (process_row f folder) w (i + length pre) post st'
    | (inr e, st') => (inr e, st')
    end.
Proof.
  induction pre as [| r pre IH]; intros i st.
  - cbn. rewrite Nat.add_0_r. reflexivity.
  - cbn [app iterrows length]. unfold bind.
    destruct (process_row f folder (w i) r st) as [[[] | e] st1]; [| reflexivity].
    rewrite IH, Nat.add_succ_l, <- Nat.add_succ_r. reflexivity.
Qed.

Lemma artifacts_from_app pre post : forall i,
  artifacts_from f folder w i (pre ++ post)
  = artifacts_from f folder w i pre
    ++ artifacts_from f folder w (i + length pre) post.
Proof.
  induction pre as [| r pre IH]; intros i.
  - cbn. rewrite Nat.add_0_r. reflexivity.
  - cbn [artifacts_from app length]. f_equal.
    rewrite Nat.add_succ_r, <- Nat.add_succ_l. apply IH.
Qed.

End Batch.

Lemma process_row_compose_fails f folder o r e st :
  renders folder o r = true ->
  row_email r = Some e -> e <> [] ->
  compose o = false ->
  process_row f folder o r st
  = (inr ComposeFailed,
     {| saved := saved st ++ [row_artifact f folder o r];
        sent := sent st; log := log st |}).
Proof.
  unfold renders. intros H He Hne Hc. apply andb_prop in H. destruct H as [Ho Hs].
  unfold process_row, bind at 1 2, ret at 1, write_file. rewrite Ho, Hs, He.
  cbv beta iota zeta.
  destruct e as [| c e]; [congruence |]. cbn [length Nat.eqb negb].
  unfold send_email_with_attachment, build_message, bind, raise.
  rewrite Hc. reflexivity.
Qed.

(** C8, counterexample.  In a batch of the two sample rows where the Email
    cell of the first holds two addresses on two lines, the header of
    line 127 is refused: the exception leaves the sink and
    [generate_cards_from_df], nothing is logged and the card of the second
    row is never saved. *)
Lemma notification_failures_isolated_fails :
  ~ notification_failures_isolated
      (world_of (fun i => if i =? 0 then malformed_address else fair))
      [john_two_lines; jane] "web_cards".
Proof.
  intros H.
  assert (Hr : forall j r', nth_error [john_two_lines; jane] j = Some r' ->
             renders "web_cards"
               (at_row (world_of (fun i => if i =? 0 then malformed_address else fair)) j)
               r' = true).
  { intros [| [| [| j]]] r' E; cbn in E; try discriminate E;
      injection E as <-; reflexivity. }
  specialize (H Hr 0 john_two_lines _ eq_refl eq_refl ltac:(discriminate)
                (or_introl eq_refl)).
  vm_compute in H. destruct H as [H _]. discriminate H.
Qed.

(** C8, amended.  A failure of the mail session, be it before the message
    is handed over (connect, [starttls], [login], [send_message]) or on
    closing the session after the delivery, is caught inside the sink and
    logged: once the message is built, [send_email_with_attachment]
    returns normally whatever the mail server does, with the error line
    in the log and no file touched.  In a batch whose rows all render and
    whose messages can all be built, the pipeline returns normally, the
    artifact of every row is saved, in order, and each failed session has
    left its error in the log.  A failure while the message is built,
    lines 95-153, is outside the handler: for a row with an address that
    renders, after rows that went through, the exception leaves the sink
    and [generate_cards_from_df]; the artifacts saved are those of the
    earlier rows and of that row, nothing is sent or logged for it, and
    the rows after it are not processed. *)
Theorem smtp_failures_are_swallowed :
  (forall o to_email subject body_text att st,
     compose o = true ->
     exists st',
       send_email_with_attachment o to_email subject body_text att st = (inl tt, st')
       /\ saved st' = saved st
       /\ (forall t,
             smtp o = Some t \/ (smtp o = None /\ smtp_quit o = Some t) ->
             In (LogError ("SMTP send failed: " ++ t)) (log st')))
  /\ (forall (w : world) (df : list row) (folder : pystr),
        (forall k r, nth_error df k = Some r ->
           renders folder (at_row w k) r = true /\ compose (at_row w k) = true) ->
        exists st,
          generate_cards_from_df w df folder init = (inl tt, st)
          /\ saved st = artifacts_from (load_fonts w) folder (at_row w) 0 df
          /\ (forall k r e t,
                nth_error df k = Some r -> row_email r = Some e -> e <> [] ->
                smtp (at_row w k) = Some t
                \/ (smtp (at_row w k) = None /\ smtp_quit (at_row w k) = Some t) ->
                In (LogError ("SMTP send failed: " ++ t)) (log st)))
  /\ (forall (w : world) (pre post : list row) (r : row) (e folder : pystr),
        (forall k r', nth_error pre k = Some r' ->
           renders folder (at_row w k) r' = true /\ compose (at_row w k) = true) ->
        renders folder (at_row w (length pre)) r = true ->
        row_email r = Some e -> e <> [] ->
        compose (at_row w (length pre)) = false ->
        exists st0 st,
          generate_cards_from_df w pre folder init = (inl tt, st0)
          /\ generate_cards_from_df w (pre ++ r :: post) folder init
             = (inr ComposeFailed, st)
          /\ saved st
             = artifacts_from (load_fonts w) folder (at_row w) 0 (pre ++ [r])
          /\ sent st = sent st0
          /\ log st = log st0).
Proof.
  split; [| split].
  - intros o to_email subject body_text att st Hc.
    destruct (send_email_with_attachment_returns o to_email subject body_text att st Hc)
      as (st' & Hrun & Hsaved & _ & Herr).
    exists st'. split; [exact Hrun |]. split; [exact Hsaved | exact Herr].
  - intros w df folder H.
    destruct (iterrows_returns (load_fonts w) folder (at_row w) df 0 init H)
      as (st & Hrun & Hsaved & _ & Herr).
    exists st. split; [exact Hrun |]. split; [exact Hsaved |]. exact Herr.
  - intros w pre post r e folder Hpre Hr He Hne Hc.
    destruct (iterrows_returns (load_fonts w) folder (at_row w) pre 0 init Hpre)
      as (st0 & Hrun & Hsaved & _).
    exists st0. eexists. split; [exact Hrun |].
    unfold generate_cards_from_df.
    rewrite iterrows_app, Hrun. cbn [iterrows Nat.add].
    unfold bind at 1.
    rewrite (process_row_compose_fails (load_fonts w) folder _ r e st0 Hr He Hne Hc).
    split; [reflexivity |]. cbn [saved sent log].
    split; [| split; reflexivity].
    rewrite Hsaved, artifacts_from_app. reflexivity.
Qed.

Lemma smtp_failures_are_swallowed_witness :
  (exists st,
     generate_cards_from_df (world_of (fun _ => mail_down)) [john; jane] "web_cards" init
       = (inl tt, st)
     /\ map fst (saved st)
        = [ ("web_cards/John_Doe_STE_12345_690_7890.png" : pystr);
            ("web_cards/Jane_Smith_CII_98765_432_1098.png" : pystr) ]
     /\ In (LogError "SMTP send failed: Connection refused") (log st))
  /\ (exists st,
        send_email_with_attachment quit_refused "john@example.com"
          "Your A-Member Card Awaits You" "" None init = (inl tt, st)
        /\ In (LogError "SMTP send failed: (421, b'closing')") (log st))
  /\ (exists st,
        generate_cards_from_df
          (world_of (fun i => if i =? 1 then malformed_address else fair))
          ([jane] ++ john_two_lines :: [jane]) "web_cards" init
        = (inr ComposeFailed, st)
        /\ map fst (saved st)
           = [ ("web_cards/Jane_Smith_CII_98765_432_1098.png" : pystr);
               ("web_cards/John_Doe_STE_12345_690_7890.png" : pystr) ]
        /\ length (sent st) = 1).
Proof.
  destruct smtp_failures_are_swallowed as (Hsink & Hbatch & Hbuild).
  split; [| split].
  - destruct (Hbatch (world_of (fun _ => mail_down)) [john; jane] "web_cards"
                (fun k r _ => conj eq_refl eq_refl))
      as (st & Hrun & Hsaved & Herr).
    exists st. split; [exact Hrun |]. split.
    + rewrite Hsaved. reflexivity.
    + apply (Herr 0 john "john@example.com" "Connection refused" eq_refl eq_refl).
      * discriminate.
      * left. reflexivity.
  - destruct (Hsink quit_refused "john@example.com" "Your A-Member Card Awaits You"
                "" None init eq_refl) as (st & Hrun & _ & Herr).
    exists st. split; [exact Hrun |].
    apply (Herr "(421, b'closing')"). right. split; reflexivity.
  - destruct (Hbuild (world_of (fun i => if i =? 1 then malformed_address else fair))
                [jane] [jane] john_two_lines
                ("john@example.com" ++ newline :: "jd@example.com") "web_cards")
      as (st0 & st & Hrun0 & Hrun & Hsaved & Hsent & _).
    + intros [| [| k]] r' E; try discriminate E. split; reflexivity.
    + reflexivity.
    + reflexivity.
    + discriminate.
    + reflexivity.
    + exists st. split; [exact Hrun |]. split.
      * rewrite Hsaved. reflexivity.
      * rewrite Hsent.
        apply (f_equal (fun p => length (sent (snd p)))) in Hrun0.
        cbn [snd] in Hrun0. rewrite <- Hrun0. reflexivity.
Defined.

(** C2, counterexample.  In a batch of the two sample rows where the
    template of the first row cannot be opened, the exception leaves
    [generate_cards_from_df]: nothing is logged and the card of the second
    row is never saved. *)
Lemma render_failures_isolated_fails :
  ~ render_failures_isolated
      (world_of (fun i => if i =? 0 then unreadable_template else fair))
      [john; jane] "web_cards".
Proof.
  intros H. specialize (H 0 john eq_refl eq_refl).
  vm_compute in H. destruct H as [H _]. discriminate H.
Qed.

(** C2, amended.  When rendering fails for a row (the template does not
    open or the save raises) and the rows before it went through, the
    exception propagates out of [generate_cards_from_df]: the batch stops
    at that row with the state the earlier rows left, so the artifacts
    saved are exactly those of the earlier rows, nothing is logged for the
    failure, and the rows after it are not processed. *)
Theorem render_failure_aborts_batch (w : world) (pre post : list row) (r : row)
    (folder : pystr) :
  (forall k r', nth_error pre k = Some r' ->
     renders folder (at_row w k) r' = true /\ compose (at_row w k) = true) ->
  renders folder (at_row w (length pre)) r = false ->
  exists e st,
    generate_cards_from_df w (pre ++ r :: post) folder init = (inr e, st)
    /\ (e = OpenFailed (row_template (at_row w (length pre)) r)
        \/ e = SaveFailed (row_filename folder r))
    /\ generate_cards_from_df w pre folder init = (inl tt, st)
    /\ saved st = artifacts_from (load_fonts w) folder (at_row w) 0 pre.
Proof.
  intros Hpre Hr. unfold generate_cards_from_df.
  destruct (iterrows_returns (load_fonts w) folder (at_row w) pre 0 init Hpre)
    as (st & Hrun & Hsaved & _).
  destruct (process_row_render_fails (load_fonts w) folder _ r st Hr)
    as (e & Hfail & He).
  exists e, st. rewrite iterrows_app, Hrun. cbn [iterrows Nat.add].
  unfold bind at 1. rewrite Hfail.
  repeat split; assumption.
Qed.

Lemma render_failure_aborts_batch_witness :
  exists st,
    generate_cards_from_df
      (world_of (fun i => if i =? 1 then unreadable_template else fair))
      ([john] ++ jane :: [john]) "web_cards" init
    = (inr (OpenFailed "static/Card_Regular.jpg"), st)
    /\ map fst (saved st) = [("web_cards/John_Doe_STE_12345_690_7890.png" : pystr)].
Proof.
  destruct (render_failure_aborts_batch
              (world_of (fun i => if i =? 1 then unreadable_template else fair))
              [john] [john] jane "web_cards") as (e & st & Hrun & He & _ & Hsaved).
  - intros [| [| k]] r' E; try discriminate E. split; reflexivity.
  - reflexivity.
  - exists st. split.
    + rewrite Hrun. destruct He as [-> | ->]; [reflexivity |].
      vm_compute in Hrun. discriminate Hrun.
    + rewrite Hsaved. reflexivity.
Defined.

(** ** The saved file *)

Lemma send_email_with_attachment_saved o to_email subject body_text att st :
  saved (snd (send_email_with_attachment o to_email subject body_text att st)) = saved st.
Proof.
  destruct (compose o) eqn:Hc.
  - destruct (send_email_with_attachment_returns o to_email subject body_text att st Hc)
      as (st' & -> & Hs & _). exact Hs.
  - unfold send_email_with_attachment, build_message, bind, raise.
    rewrite Hc. reflexivity.
Qed.

Lemma process_row_saved f folder o r st :
  saved (snd (process_row f folder o r st))
  = saved st ++ (if renders folder o r then [row_artifact f folder o r] else []).
Proof.
  unfold renders, process_row, bind at 1 2, ret at 1, raise, write_file.
  destruct (image_open o (row_template o r)); cbn [andb];
    [| cbn; rewrite app_nil_r; reflexivity].
  destruct (image_save o (row_filename folder r));
    [| cbn; rewrite app_nil_r; reflexivity].
  cbv beta iota zeta.
  destruct (row_email r) as [e |]; [| reflexivity].
  destruct (negb (length e =? 0)); [| reflexivity].
  apply send_email_with_attachment_saved.
Qed.

(** C9. The file a row's card is saved under is named
    [{sanitize(Name)}_{sanitize(Card)}.png] inside the output folder, so it
    ends in [.png]; the sanitiser turns every space into an underscore,
    deletes the path-hostile characters, leaves every other character as
    it is (no change of case), and keeps at most 100 characters. *)
Theorem artifact_filename (f : fonts) (folder : pystr) (o : outcomes) (r : row)
    (st : state) :
  let p := row_filename folder r in
  saved (snd (process_row f folder o r st))
    = saved st ++ (if renders folder o r then [(p, draw_card f o r)] else [])
  /\ os_path_basename p
     = sanitize_filename (row_name r) ++ "_" ++ sanitize_filename (row_Card r) ++ ".png"
  /\ endswith p ".png" = true
  /\ forall name : pystr,
       sanitize_filename name = spec_sanitize name
       /\ length (sanitize_filename name) <= 100
       /\ Forall (fun c => path_hostile c = false /\ c <> " "%char)
            (sanitize_filename name).
Proof.
  cbv zeta. split; [apply process_row_saved |]. split; [| split].
  - apply os_path_join_basename, artifact_name_no_slash.
  - apply os_path_join_endswith;
      [apply artifact_name_no_slash | apply artifact_name_png].
  - intros name. split; [apply sanitize_filename_spec |].
    split; [apply sanitize_filename_length | apply sanitize_filename_clean].
Qed.

Example sanitize_filename_sample :
  sanitize_filename "John Doe: <VIP>/a|b" = "John_Doe_VIPab".
Proof. reflexivity. Qed.

(** * Properties of the rest of the program *)

(** ** Upload filter *)

Lemma rpartition_none sep s : rpartition sep s = None <-> contains sep s = false.
Proof.
  unfold contains. induction s as [| c s IH]; cbn; [tauto |].
  destruct (rpartition sep s) as [[a b] |].
  - split; [discriminate |]. intros H. apply orb_false_iff in H.
    destruct H as [_ H]. apply IH in H. discriminate H.
  - rewrite (Ascii.eqb_sym sep c).
    destruct (Ascii.eqb c sep); cbn; [split; discriminate |].
    split; intros _; [apply IH |]; reflexivity.
Qed.

Lemma rpartition_some sep s a b :
  rpartition sep s = Some (a, b) ->
  s = a ++ sep :: b /\ contains sep b = false.
Proof.
  revert a. induction s as [| c s IH]; intros a; cbn; [discriminate |].
  destruct (rpartition sep s) as [[a' b'] |] eqn:E.
  - intros H. injection H as <- <-.
    destruct (IH a' eq_refl) as [-> Hb]. split; [reflexivity | exact Hb].
  - destruct (Ascii.eqb c sep) eqn:Hc; [| discriminate].
    intros H. injection H as <- <-. apply Ascii.eqb_eq in Hc. subst c.
    split; [reflexivity |]. apply rpartition_none, E.
Qed.

Lemma last_sep_unique (sep : ascii) a b a' b' :
  a ++ sep :: b = a' ++ sep :: b' ->
  contains sep b = false -> contains sep b' = false ->
  a = a' /\ b = b'.
Proof.
  unfold contains. revert a'. induction a as [| c a IH]; intros [| c' a'] E Hb Hb'.
  - injection E as ->. split; reflexivity.
  - injection E as <- ->. rewrite existsb_app in Hb. cbn in Hb.
    rewrite Ascii.eqb_refl, orb_true_r in Hb. discriminate Hb.
  - injection E as -> <-. rewrite existsb_app in Hb'. cbn in Hb'.
    rewrite Ascii.eqb_refl, orb_true_r in Hb'. discriminate Hb'.
  - injection E as -> E. destruct (IH a' E Hb Hb') as [-> ->].
    split; reflexivity.
Qed.

Lemma lower_char_dot c : Ascii.eqb "." (lower_char c) = Ascii.eqb "." c.
Proof.
  destruct c as [b0 b1 b2 b3 b4 b5 b6 b7].
  destruct b0, b1, b2, b3, b4, b5, b6, b7; reflexivity.
Qed.

Lemma contains_dot_lower s : contains "." (lower s) = contains "." s.
Proof.
  unfold contains, lower. induction s as [| c s IH]; [reflexivity |].
  cbn [map existsb]. rewrite lower_char_dot, IH. reflexivity.
Qed.

Lemma lower_app s t : lower (s ++ t) = lower s ++ lower t.
Proof. apply map_app. Qed.

Lemma endswith_iff s suf : endswith s suf = true <-> exists pre, s = pre ++ suf.
Proof.
  unfold endswith. split.
  - intros H. apply startswith_app in H.
    set (t := skipn (length (rev suf)) (rev s)) in H. exists (rev t).
    apply (f_equal (@rev ascii)) in H.
    rewrite rev_involutive, rev_app_distr, rev_involutive in H. exact H.
  - intros [pre ->]. rewrite rev_app_distr. apply startswith_prefix.
Qed.

(** X1. [allowed_file] never raises, and it accepts a name exactly when
    the lower-cased name ends in [.xlsx]: what follows the last dot is
    compared without case, and a name without a dot is refused. *)
Theorem allowed_file_xlsx (filename : pystr) :
  allowed_file filename = Some (endswith (lower filename) ".xlsx").
Proof.
  unfold allowed_file, rsplit1.
  destruct (rpartition "." filename) as [[a b] |] eqn:E.
  - apply rpartition_some in E. destruct E as [-> Hb].
    unfold contains at 1. rewrite existsb_app. cbn [existsb].
    rewrite Ascii.eqb_refl, orb_true_r. cbn [nth_error]. f_equal.
    destruct (pystr_eqb (lower b) "xlsx") eqn:Hx.
    + apply pystr_eqb_eq in Hx. symmetry. apply endswith_iff.
      exists (lower a). rewrite lower_app.
      change (lower ("."%char :: b)) with ("."%char :: lower b).
      rewrite Hx. reflexivity.
    + destruct (endswith (lower (a ++ "."%char :: b)) ".xlsx") eqn:He;
        [| reflexivity].
      apply endswith_iff in He. destruct He as [pre He].
      rewrite lower_app in He.
      change (lower a ++ "."%char :: lower b
              = pre ++ "."%char :: ("xlsx" : pystr)) in He.
      apply last_sep_unique in He;
        [| rewrite contains_dot_lower; exact Hb | reflexivity].
      destruct He as [_ He]. rewrite He in Hx. discriminate Hx.
  - apply rpartition_none in E. rewrite E. f_equal.
    destruct (endswith (lower filename) ".xlsx") eqn:He; [| reflexivity].
    apply endswith_iff in He. destruct He as [pre He].
    rewrite <- contains_dot_lower, He in E. unfold contains in E.
    rewrite existsb_app in E. cbn in E. rewrite orb_true_r in E. discriminate E.
Qed.

(** ** The sanitiser *)

Lemma replace_char_id (a b : ascii) s :
  Forall (fun c => c <> a) s -> replace_char a b s = s.
Proof.
  unfold replace_char. induction 1 as [| c s Hc _ IH]; [reflexivity |].
  cbn [map]. rewrite IH. apply Ascii.eqb_neq in Hc. rewrite Hc. reflexivity.
Qed.

Lemma re_sub_delete_id cls s :
  Forall (fun c => cls c = false) s -> re_sub_delete cls s = s.
Proof.
  unfold re_sub_delete. induction 1 as [| c s Hc _ IH]; [reflexivity |].
  cbn [filter]. rewrite Hc, IH. reflexivity.
Qed.

(** X2. Sanitising is idempotent: a sanitised name is left as it is. *)
Theorem sanitize_filename_idempotent (name : pystr) :
  sanitize_filename (sanitize_filename name) = sanitize_filename name.
Proof.
  pose proof (sanitize_filename_clean name) as Hc.
  pose proof (sanitize_filename_length name) as Hl.
  set (t := sanitize_filename name) in *. unfold sanitize_filename, slice_to.
  rewrite replace_char_id, re_sub_delete_id.
  - apply firstn_all2. exact Hl.
  - eapply Forall_impl; [| exact Hc]. cbn. tauto.
  - eapply Forall_impl; [| exact Hc]. cbn. tauto.
Qed.

Lemma spec_sanitize_app_cons a c b :
  spec_sanitize (a ++ c :: b)
  = firstn 100 (flat_map sanitize_char a ++ sanitize_char c ++ flat_map sanitize_char b).
Proof. unfold spec_sanitize. rewrite flat_map_app. reflexivity. Qed.

(** X3. Different names are sanitised to the same file name: a
    path-hostile character anywhere in the name does not count, a space
    and an underscore are the same, and once 100 characters are kept,
    whatever follows does not count. *)
Theorem sanitize_filename_collisions (a b : pystr) :
  (forall c, path_hostile c = true ->
     sanitize_filename (a ++ c :: b) = sanitize_filename (a ++ b))
  /\ sanitize_filename (a ++ " "%char :: b) = sanitize_filename (a ++ "_"%char :: b)
  /\ (length (sanitize_filename a) = 100 ->
      sanitize_filename (a ++ b) = sanitize_filename a).
Proof.
  split; [| split].
  - intros c Hc. rewrite !sanitize_filename_spec, spec_sanitize_app_cons.
    unfold spec_sanitize.
    rewrite flat_map_app. unfold sanitize_char at 2. rewrite Hc.
    destruct (Ascii.eqb c " ") eqn:E; [| reflexivity].
    apply Ascii.eqb_eq in E. subst c. discriminate Hc.
  - rewrite !sanitize_filename_spec, !spec_sanitize_app_cons. reflexivity.
  - rewrite !sanitize_filename_spec.
    unfold spec_sanitize. rewrite flat_map_app, length_firstn. intros H.
    rewrite firstn_app. replace (100 - length (flat_map sanitize_char a)) with 0 by lia.
    cbn [firstn]. apply app_nil_r.
Qed.

Lemma sanitize_filename_collisions_witness :
  sanitize_filename ("John" ++ "/"%char :: "Doe") = sanitize_filename ("John" ++ "Doe")
  /\ sanitize_filename (repeat "a"%char 100 ++ "1") = sanitize_filename (repeat "a"%char 100).
Proof.
  split.
  - exact (proj1 (sanitize_filename_collisions "John" "Doe") "/"%char eq_refl).
  - exact (proj2 (proj2 (sanitize_filename_collisions (repeat "a"%char 100) "1")) eq_refl).
Defined.

(** ** The normaliser *)

Lemma isdigit_isalnum c : isdigit c = true -> isalnum c = true.
Proof.
  unfold isalnum. intros ->. rewrite !orb_true_r. reflexivity.
Qed.

Lemma clean_id s : Forall (fun c => isalnum c = true) s -> clean s = s.
Proof.
  unfold clean, join_if. induction 1 as [| c s Hc _ IH]; [reflexivity |].
  cbn [filter]. rewrite Hc, IH. reflexivity.
Qed.

Lemma clean_alnum s : Forall (fun c => isalnum c = true) (clean s).
Proof.
  unfold clean, join_if. apply Forall_forall. intros c Hc.
  apply filter_In in Hc. tauto.
Qed.

Lemma all_digits_alnum s : all_digits s -> Forall (fun c => isalnum c = true) s.
Proof.
  unfold all_digits. apply Forall_impl. exact isdigit_isalnum.
Qed.

Lemma join_if_digits_id s : all_digits s -> join_if isdigit s = s.
Proof.
  unfold all_digits, join_if. induction 1 as [| c s Hc _ IH]; [reflexivity |].
  cbn [filter]. rewrite Hc, IH. reflexivity.
Qed.

Lemma Forall_firstn {A} (P : A -> Prop) n l : Forall P l -> Forall P (firstn n l).
Proof.
  intros H. rewrite <- (firstn_skipn n l) in H. apply Forall_app in H. tauto.
Qed.

Lemma Forall_skipn {A} (P : A -> Prop) n l : Forall P l -> Forall P (skipn n l).
Proof.
  intros H. rewrite <- (firstn_skipn n l) in H. apply Forall_app in H. tauto.
Qed.

Lemma firstn_exact {A} n (s t : list A) : length s = n -> firstn n (s ++ t) = s.
Proof.
  intros <-. rewrite firstn_app, Nat.sub_diag, firstn_all. apply app_nil_r.
Qed.

Lemma skipn_exact {A} n (s t : list A) : length s = n -> skipn n (s ++ t) = t.
Proof.
  intros <-. rewrite skipn_app, Nat.sub_diag, skipn_all. reflexivity.
Qed.

Lemma fit_exact n s t : length s = n -> fit n (s ++ t) = s.
Proof.
  intros H. unfold fit. rewrite <- app_assoc. apply firstn_exact, H.
Qed.

(** A well-formed long-form string is a fixed point of the normaliser. *)
Lemma format_card_id_long_fixed (category numbers suffix : pystr) :
  length category = 3 -> Forall (fun c => isalnum c = true) category ->
  length numbers = 7 -> all_digits numbers ->
  length suffix = 4 -> all_digits suffix ->
  format_card_id ("AL001/" ++ category ++ "-" ++ numbers ++ "/" ++ suffix)
  = "AL001/" ++ category ++ "-" ++ numbers ++ "/" ++ suffix.
Proof.
  intros Hc Ac Hn Dn Hs Ds.
  assert (E : clean ("AL001/" ++ category ++ "-" ++ numbers ++ "/" ++ suffix)
              = "AL001" ++ category ++ numbers ++ suffix).
  { rewrite !clean_app, (clean_id category Ac),
      (clean_id numbers (all_digits_alnum _ Dn)),
      (clean_id suffix (all_digits_alnum _ Ds)). reflexivity. }
  rewrite format_card_id_AL001 by (rewrite E; reflexivity).
  rewrite E.
  assert (L : length ("AL001" ++ category ++ numbers ++ suffix) = 19).
  { rewrite !length_app, Hc, Hn, Hs. reflexivity. }
  rewrite L. cbn [Nat.leb].
  assert (S58 : slice 5 8 ("AL001" ++ category ++ numbers ++ suffix) = category).
  { change (firstn 3 (category ++ numbers ++ suffix) = category).
    apply firstn_exact, Hc. }
  assert (S8 : slice_from 8 ("AL001" ++ category ++ numbers ++ suffix)
               = numbers ++ suffix).
  { change (skipn 3 (category ++ numbers ++ suffix) = numbers ++ suffix).
    apply skipn_exact, Hc. }
  rewrite S58, S8, (join_if_digits_id _ (all_digits_app _ _ Dn Ds)).
  rewrite (fit_exact 7 numbers suffix Hn), (skipn_exact 7 numbers suffix Hn).
  rewrite <- (app_nil_r suffix) at 1. rewrite (fit_exact 4 suffix [] Hs).
  reflexivity.
Qed.

(** X4. In the long-form family the normaliser is idempotent: its output,
    fed to it again, comes back unchanged. *)
Theorem format_card_id_idempotent_long (s : pystr) :
  long_form_trigger s = true ->
  format_card_id (format_card_id s) = format_card_id s.
Proof.
  unfold long_form_trigger. intros H.
  destruct (startswith (clean s) "AL001") eqn:H5.
  - rewrite (format_card_id_AL001 s H5).
    apply format_card_id_long_fixed; auto using length_fit with digits.
    + apply length_category.
    + destruct (8 <=? length (clean s)).
      * unfold slice. apply Forall_firstn, Forall_skipn, clean_alnum.
      * repeat constructor.
  - cbn [orb] in H. rewrite (format_card_id_STE s H5 H).
    apply format_card_id_long_fixed; auto using length_fit with digits.
    + apply startswith_length in H. cbn [length list_ascii_of_string] in H.
      unfold slice_to. rewrite length_firstn. lia.
    + apply Forall_firstn, clean_alnum.
Qed.

Lemma format_card_id_idempotent_long_witness :
  format_card_id (format_card_id "STE 12345 690 7890")
  = format_card_id "STE 12345 690 7890".
Proof.
  exact (format_card_id_idempotent_long "STE 12345 690 7890" eq_refl).
Defined.

(** X5. An identifier that cleans to [AL001] followed by fewer than three
    characters loses them: the category is the filler and no digit is
    read, so the output is always [AL001/XXX-0000000/0000]. *)
Theorem format_card_id_short_scheme_prefix (s : pystr) :
  startswith (clean s) "AL001" = true ->
  length (clean s) < 8 ->
  format_card_id s = "AL001/XXX-0000000/0000".
Proof.
  intros H Hl. rewrite (format_card_id_AL001 s H).
  assert (E : (8 <=? length (clean s)) = false) by (apply Nat.leb_gt; exact Hl).
  rewrite E. unfold slice_from. rewrite skipn_all2 by lia. reflexivity.
Qed.

Lemma format_card_id_short_scheme_prefix_witness :
  format_card_id "AL001-12" = "AL001/XXX-0000000/0000".
Proof.
  apply (format_card_id_short_scheme_prefix "AL001-12"); [reflexivity |].
  cbn. lia.
Defined.

Lemma startswith_app_prefix (s t p : pystr) :
  length p <= length s -> startswith (s ++ t) p = startswith s p.
Proof.
  revert s. induction p as [| a p IH]; intros s H; [reflexivity |].
  destruct s as [| b s]; [cbn in H; lia |].
  cbn. rewrite IH by (cbn in H; lia). reflexivity.
Qed.

Lemma groups_of_eleven (F : pystr) :
  length F = 11 -> firstn 4 F ++ slice 4 8 F ++ slice 8 11 F = F.
Proof.
  intros H.
  do 11 (destruct F as [| ? F]; [discriminate H |]).
  destruct F; [reflexivity | discriminate H].
Qed.

Lemma fit_id n s : length s = n -> fit n s = s.
Proof.
  intros H. rewrite <- (app_nil_r s) at 1. apply fit_exact, H.
Qed.

Lemma startswith_AL001_third (a b c : ascii) (t : pystr) :
  startswith (a :: b :: c :: t) "AL001" = true -> c = "0"%char.
Proof.
  intros H. apply startswith_app in H.
  change (a :: b :: c :: t
          = "A"%char :: "L"%char :: "0"%char
              :: ("01" ++ skipn 5 (a :: b :: c :: t))) in H.
  injection H as _ _ H _. exact H.
Qed.

(** A default-form string whose 3-character field holds no digit and is
    not a carrier code is a fixed point of the normaliser. *)
Lemma format_card_id_default_fixed (chars F : pystr) :
  length chars = 3 -> Forall (fun c => isalnum c = true) chars ->
  Forall (fun c => isdigit c = false) chars ->
  startswith chars "STE" = false ->
  length F = 11 -> all_digits F ->
  format_card_id (chars ++ "-" ++ firstn 4 F ++ " " ++ slice 4 8 F ++ " " ++ slice 8 11 F)
  = chars ++ "-" ++ firstn 4 F ++ " " ++ slice 4 8 F ++ " " ++ slice 8 11 F.
Proof.
  intros Hc Ac Nc Hs HF DF.
  assert (E : clean (chars ++ "-" ++ firstn 4 F ++ " " ++ slice 4 8 F ++ " "
                           ++ slice 8 11 F) = chars ++ F).
  { pose proof (all_digits_alnum F DF) as AF.
    rewrite !clean_app, (clean_id chars Ac).
    rewrite (clean_id (firstn 4 F)) by apply Forall_firstn, AF.
    rewrite (clean_id (slice 4 8 F)) by apply Forall_firstn, Forall_skipn, AF.
    rewrite (clean_id (slice 8 11 F)) by apply Forall_firstn, Forall_skipn, AF.
    change (chars ++ firstn 4 F ++ slice 4 8 F ++ slice 8 11 F = chars ++ F).
    rewrite (groups_of_eleven F HF). reflexivity. }
  assert (T : long_form_trigger
                (chars ++ "-" ++ firstn 4 F ++ " " ++ slice 4 8 F ++ " "
                       ++ slice 8 11 F) = false).
  { unfold long_form_trigger. rewrite E.
    rewrite (startswith_app_prefix chars F "STE") by (rewrite Hc; cbn; lia).
    rewrite Hs, orb_false_r.
    destruct chars as [| a [| b [| c [| ? ?]]]]; try discriminate Hc.
    destruct (startswith ([a; b; c] ++ F) "AL001") eqn:E5; [| reflexivity].
    apply startswith_AL001_third in E5. subst c.
    inversion Nc as [| ? ? _ Nc1]. inversion Nc1 as [| ? ? _ Nc2].
    inversion Nc2 as [| ? ? N0 _]. discriminate N0. }
  rewrite (format_card_id_default _ T), E.
  unfold slice_to. rewrite (firstn_exact 3 chars F Hc).
  assert (D : join_if isdigit (chars ++ F) = F).
  { unfold join_if. rewrite filter_app. fold (join_if isdigit F).
    rewrite (join_if_digits_id F DF).
    replace (filter isdigit chars) with (@nil ascii); [reflexivity |].
    clear -Nc. induction Nc as [| c l Hc _ IH]; [reflexivity |].
    cbn [filter]. rewrite Hc. exact IH. }
  rewrite D, (fit_id 11 F HF).
  unfold ljust. rewrite Hc. cbn [Nat.sub repeat]. rewrite app_nil_r.
  reflexivity.
Qed.

(** X6. In the default family the normaliser is idempotent as long as
    the first three cleaned characters hold no digit; a digit among them
    is counted a second time when the output is fed back, as for
    [A12]. *)
Theorem format_card_id_idempotent_default :
  (forall s : pystr,
     long_form_trigger s = false ->
     Forall (fun c => isdigit c = false) (firstn 3 (clean s)) ->
     format_card_id (format_card_id s) = format_card_id s)
  /\ format_card_id "A12" = "A12-1200 0000 000"
  /\ format_card_id (format_card_id "A12") = "A12-1212 0000 000".
Proof.
  split; [| split; reflexivity].
  intros s T N. rewrite (format_card_id_default s T).
  apply format_card_id_default_fixed; auto using length_fit with digits.
  - rewrite length_ljust. unfold slice_to. rewrite length_firstn. lia.
  - unfold ljust. apply Forall_app. split.
    + apply Forall_firstn, clean_alnum.
    + apply Forall_forall. intros c Hc. apply repeat_spec in Hc. subst c.
      reflexivity.
  - unfold ljust. apply Forall_app. split; [exact N |].
    apply Forall_forall. intros c Hc. apply repeat_spec in Hc. subst c.
    reflexivity.
  - unfold long_form_trigger in T. apply orb_false_iff in T. destruct T as [_ T].
    unfold ljust, slice_to.
    destruct (clean s) as [| a [| b [| c l]]]; try reflexivity.
    + cbn. rewrite andb_false_r. reflexivity.
    + cbn. rewrite !andb_false_r. reflexivity.
    + cbn in T |- *. rewrite !andb_true_r in *. exact T.
Qed.

Lemma format_card_id_idempotent_default_witness :
  format_card_id (format_card_id "CII-x") = format_card_id "CII-x".
Proof.
  apply (proj1 format_card_id_idempotent_default "CII-x"); [reflexivity |].
  repeat constructor.
Defined.

(** ** One turn of the loop *)

Lemma lower_png s : endswith s ".png" = true -> endswith (lower s) ".png" = true.
Proof.
  intros H. apply endswith_iff in H. destruct H as [pre ->].
  rewrite lower_app. apply endswith_app. reflexivity.
Qed.

Lemma artifact_name_not_emailbody name Card :
  pystr_eqb (lower (artifact_name name Card)) "emailbody.jpg" = false.
Proof.
  destruct (pystr_eqb _ _) eqn:E; [| reflexivity].
  apply pystr_eqb_eq in E.
  pose proof (lower_png _ (artifact_name_png name Card)) as H.
  rewrite E in H. vm_compute in H. discriminate H.
Qed.

Lemma row_filename_basename folder r :
  os_path_basename (row_filename folder r) = artifact_name (row_name r) (row_Card r).
Proof. apply os_path_join_basename, artifact_name_no_slash. Qed.

Lemma row_filename_nonempty folder r : (length (row_filename folder r) =? 0) = false.
Proof.
  pose proof (os_path_join_endswith folder _ ".png"
                (artifact_name_no_slash (row_name r) (row_Card r))
                (artifact_name_png (row_name r) (row_Card r))) as H.
  change (endswith (row_filename folder r) ".png" = true) in H.
  destruct (row_filename folder r); [discriminate H | reflexivity].
Qed.

(** The loop body, outcome by outcome. *)
Lemma process_row_step f folder o r st :
  process_row f folder o r st = row_step f folder o r st.
Proof.
  unfold process_row, row_step, row_recipient, bind at 1 2, ret at 1, raise,
    write_file, set_saved.
  destruct (image_open o (row_template o r)); [| reflexivity].
  destruct (image_save o (row_filename folder r)); [| reflexivity].
  cbv beta iota zeta. cbn [negb].
  destruct (row_email r) as [e |]; [| reflexivity].
  destruct (negb (length e =? 0)); [| reflexivity].
  unfold send_email_with_attachment, build_message, smtp_session, smtp_close.
  destruct (compose o); [| reflexivity]. cbn [negb].
  rewrite row_filename_nonempty, row_filename_basename,
    artifact_name_not_emailbody.
  cbn [negb andb].
  unfold notification, bind, try_except, ret, raise, logging, deliver.
  change (os_path_join "static" "Redemption.jpg") with ("static/Redemption.jpg" : pystr).
  change (pystr_eqb (lower (os_path_basename "static/Redemption.jpg")) "emailbody.jpg")
    with false.
  cbn [negb]. rewrite andb_true_r.
  destruct (path_exists o (row_filename folder r)), (smtp o), (smtp_quit o);
    reflexivity.
Qed.

(** ** Invariants of the batch *)

Lemma notified_cons folder w i r df m :
  notified folder w (S i) df m -> notified folder w i (r :: df) m.
Proof.
  intros (k & r' & e & Hk & H). exists (S k), r', e.
  rewrite Nat.add_succ_r. split; [exact Hk | exact H].
Qed.

Lemma log_from_no_recipient w df : forall i,
  (forall r, In r df -> row_recipient r = None) -> log_from w i df = [].
Proof.
  induction df as [| r df IH]; intros i H; [reflexivity |].
  cbn [log_from]. unfold delivery_log. rewrite (H r (or_introl eq_refl)).
  apply IH. intros r' Hr'. apply H. right. exact Hr'.
Qed.

Lemma delivery_log_no_warning o r :
  Forall (fun l => is_warning l = false) (delivery_log o r).
Proof.
  unfold delivery_log.
  destruct (row_recipient r); [| constructor].
  destruct (negb (compose o)); [constructor |].
  destruct (smtp o); [repeat constructor |].
  destruct (smtp_quit o); repeat constructor.
Qed.

Lemma log_from_no_warning w df : forall i,
  Forall (fun l => is_warning l = false) (log_from w i df).
Proof.
  induction df as [| r df IH]; intros i; [constructor |].
  cbn [log_from]. apply Forall_app. split; [apply delivery_log_no_warning | apply IH].
Qed.

Section Trace.

Variable f : fonts.
Variable folder : pystr.
Variable w : nat -> outcomes.

(** What a run of the loop leaves behind, whatever the world answers: the
    cards of a prefix of the rows, the notifications of rows among them,
    and the log lines of the deliveries attempted for them. *)
Lemma iterrows_trace df : forall i st,
  exists n ms,
    n <= length df
    /\ (fst (iterrows (process_row f folder) w i df st) = inl tt -> n = length df)
    /\ saved (snd (iterrows (process_row f folder) w i df st))
       = saved st ++ artifacts_from f folder w i (firstn n df)
    /\ sent (snd (iterrows (process_row f folder) w i df st)) = sent st ++ ms
    /\ log (snd (iterrows (process_row f folder) w i df st))
       = log st ++ log_from w i (firstn n df)
    /\ Forall (notified folder w i df) ms
    /\ length (filter is_info (log_from w i (firstn n df))) = length ms
    /\ length ms <= n.
Proof.
  induction df as [| r df IH]; intros i st.
  - exists 0, []. cbn. rewrite !app_nil_r. repeat split; auto.
  - cbn [iterrows]. unfold bind. rewrite process_row_step.
    assert (Hhere : forall e, row_recipient r = Some e ->
              renders folder (w i) r = true -> compose (w i) = true ->
              smtp (w i) = None ->
              notified folder w i (r :: df) (notification folder (w i) r e)).
    { intros e He Hr Hc Hs. exists 0, r, e. rewrite Nat.add_0_r.
      repeat split; assumption. }
    unfold row_step, renders in *.
    destruct (image_open (w i) (row_template (w i) r)) eqn:Ho; cbn [negb andb] in *.
    2:{ exists 0, []. cbn. rewrite !app_nil_r.
        repeat split; auto; try lia. discriminate. }
    destruct (image_save (w i) (row_filename folder r)) eqn:Hs; cbn [negb] in *.
    2:{ exists 0, []. cbn. rewrite !app_nil_r.
        repeat split; auto; try lia. discriminate. }
    destruct (row_recipient r) as [e |] eqn:He.
    + destruct (compose (w i)) eqn:Hc; cbn [negb].
      2:{ exists 1, []. cbn [firstn log_from artifacts_from]. unfold delivery_log.
          rewrite He, Hc. cbn. rewrite !app_nil_r.
          repeat split; auto; try lia. discriminate. }
      destruct (smtp (w i)) as [t |] eqn:Hm.
      * match goal with
        | |- context [iterrows _ _ _ _ ?s] => destruct (IH (S i) s)
            as (n & ms & Hn & Hok & Hsv & Hst & Hlg & Hms & Hc1 & Hc2)
        end.
        exists (S n), ms.
        cbn [firstn artifacts_from log_from length]. unfold delivery_log.
        rewrite He, Hc, Hm. cbn [negb app filter is_info].
        rewrite Hsv, Hst, Hlg. cbn [saved sent log set_saved].
        rewrite <- !app_assoc. cbn [app].
        split; [lia |]. split; [intros H; f_equal; apply Hok, H |].
        do 3 (split; [reflexivity |]).
        split; [eapply Forall_impl; [| exact Hms]; intros m; apply notified_cons |].
        split; [exact Hc1 | lia].
      * match goal with
        | |- context [iterrows _ _ _ _ ?s] => destruct (IH (S i) s)
            as (n & ms & Hn & Hok & Hsv & Hst & Hlg & Hms & Hc1 & Hc2)
        end.
        exists (S n), (notification folder (w i) r e :: ms).
        cbn [firstn artifacts_from log_from length]. unfold delivery_log.
        rewrite He, Hc, Hm. cbn [negb].
        rewrite Hsv, Hst, Hlg. cbn [saved sent log set_saved].
        split; [lia |]. split; [intros H; f_equal; apply Hok, H |].
        split; [rewrite <- !app_assoc; reflexivity |].
        split; [rewrite <- !app_assoc; reflexivity |].
        split; [destruct (smtp_quit (w i)); rewrite <- !app_assoc; reflexivity |].
        split; [| split].
        -- constructor.
           ++ apply Hhere; reflexivity.
           ++ eapply Forall_impl; [| exact Hms]. intros m. apply notified_cons.
        -- destruct (smtp_quit (w i)); cbn [app filter is_info length];
             rewrite Hc1; reflexivity.
        -- cbn [length]. lia.
    + match goal with
      | |- context [iterrows _ _ _ _ ?s] => destruct (IH (S i) s)
          as (n & ms & Hn & Hok & Hsv & Hst & Hlg & Hms & Hc1 & Hc2)
      end.
      exists (S n), ms.
      cbn [firstn artifacts_from log_from length]. unfold delivery_log.
      rewrite He. cbn [app].
      rewrite Hsv, Hst, Hlg. cbn [saved sent log set_saved].
      rewrite <- !app_assoc. cbn [app].
      split; [lia |]. split; [intros H; f_equal; apply Hok, H |].
      do 3 (split; [reflexivity |]).
      split; [eapply Forall_impl; [| exact Hms]; intros m; apply notified_cons |].
      split; [exact Hc1 | lia].
Qed.

End Trace.


(** X7. Whatever the world answers, the files written by a batch are the
    cards of the first [n] rows, one per row and in row order; when the
    batch returns normally, [n] is the number of rows. *)
Theorem cards_are_saved_in_row_order (w : world) (df : list row) (folder : pystr) :
  exists n,
    n <= length df
    /\ saved (snd (generate_cards_from_df w df folder init))
       = artifacts_from (load_fonts w) folder (at_row w) 0 (firstn n df)
    /\ (fst (generate_cards_from_df w df folder init) = inl tt -> n = length df).
Proof.
  destruct (iterrows_trace (load_fonts w) folder (at_row w) df 0 init)
    as (n & ms & Hn & Hok & Hsv & _).
  exists n. split; [exact Hn |]. split; [exact Hsv | exact Hok].
Qed.

Lemma cards_are_saved_in_row_order_witness :
  map fst (saved (snd (generate_cards_from_df (world_of (fun _ => fair))
                         [john; jane] "web_cards" init)))
  = [("web_cards/John_Doe_STE_12345_690_7890.png" : pystr);
     ("web_cards/Jane_Smith_CII_98765_432_1098.png" : pystr)].
Proof.
  destruct (cards_are_saved_in_row_order (world_of (fun _ => fair))
              [john; jane] "web_cards") as (n & _ & Hsaved & Hn).
  rewrite Hsaved, (Hn eq_refl). reflexivity.
Defined.


(** X9. The log of a batch is made of the lines of its delivery attempts
    and nothing else, in row order: for each row whose card was saved,
    that has a recipient and whose message was built, one line
    [SMTP send failed: ...] when the session failed before the message
    was handed over, and else the line [Email sent to ...], followed by a
    line [SMTP send failed: ...] when the session could not be closed
    after the delivery.  The warning about [EmailBody.jpg] is never logged
    by a batch, and the success lines are as many as the delivered
    messages. *)
Theorem log_records_delivery_attempts (w : world) (df : list row) (folder : pystr) :
  exists n,
    n <= length df
    /\ (fst (generate_cards_from_df w df folder init) = inl tt -> n = length df)
    /\ saved (snd (generate_cards_from_df w df folder init))
       = artifacts_from (load_fonts w) folder (at_row w) 0 (firstn n df)
    /\ log (snd (generate_cards_from_df w df folder init))
       = log_from (at_row w) 0 (firstn n df)
    /\ Forall (fun l => is_warning l = false)
         (log (snd (generate_cards_from_df w df folder init)))
    /\ length (filter is_info (log (snd (generate_cards_from_df w df folder init))))
       = length (sent (snd (generate_cards_from_df w df folder init))).
Proof.
  destruct (iterrows_trace (load_fonts w) folder (at_row w) df 0 init)
    as (n & ms & Hn & Hok & Hsv & Hst & Hlg & _ & Hc1 & _).
  exists n. unfold generate_cards_from_df in *.
  rewrite Hsv, Hst, Hlg. cbn [init saved sent log app].
  split; [exact Hn |]. split; [exact Hok |].
  do 2 (split; [reflexivity |]).
  split; [apply log_from_no_warning | exact Hc1].
Qed.

Lemma log_records_delivery_attempts_witness :
  log (snd (generate_cards_from_df
              (world_of (fun i => if i =? 0 then quit_refused else mail_down))
              [john; card_only "ABC123"; jane] "web_cards" init))
  = [ LogInfo "Email sent to john@example.com";
      LogError "SMTP send failed: (421, b'closing')";
      LogError "SMTP send failed: Connection refused" ].
Proof.
  destruct (log_records_delivery_attempts
              (world_of (fun i => if i =? 0 then quit_refused else mail_down))
              [john; card_only "ABC123"; jane] "web_cards")
    as (n & _ & Hn & _ & Hlog & _).
  rewrite Hlog, (Hn eq_refl). reflexivity.
Defined.

(** X10. A batch in which no row has a usable Email cell (the column is
    absent, the cell is missing, or its text is empty) sends nothing and
    logs nothing, whether it completes or not. *)
Theorem no_recipient_no_mail (w : world) (df : list row) (folder : pystr) :
  (forall r, In r df -> row_recipient r = None) ->
  sent (snd (generate_cards_from_df w df folder init)) = []
  /\ log (snd (generate_cards_from_df w df folder init)) = [].
Proof.
  intros H.
  destruct (iterrows_trace (load_fonts w) folder (at_row w) df 0 init)
    as (n & ms & _ & _ & _ & Hst & Hlg & Hms & _).
  unfold generate_cards_from_df. rewrite Hst, Hlg. cbn [init sent log app].
  split.
  - destruct ms as [| m ms]; [reflexivity |].
    inversion Hms as [| ? ? (k & r & e & Hk & He & _) _].
    apply nth_error_In in Hk. rewrite (H r Hk) in He. discriminate He.
  - apply log_from_no_recipient. intros r Hr. apply H.
    rewrite <- (firstn_skipn n df). apply in_or_app. left. exact Hr.
Qed.

Lemma no_recipient_no_mail_witness :
  sent (snd (generate_cards_from_df (world_of (fun _ => mail_down))
               [card_only "ABC123"; card_only "AL001"] "web_cards" init)) = [].
Proof.
  apply (no_recipient_no_mail (world_of (fun _ => mail_down))
           [card_only "ABC123"; card_only "AL001"] "web_cards").
  intros r [<- | [<- | []]]; reflexivity.
Defined.

(** ** Template and date of a row *)

Lemma lower_char_y a : lower_char a = "y"%char <-> a = "Y"%char \/ a = "y"%char.
Proof.
  destruct a as [b0 b1 b2 b3 b4 b5 b6 b7].
  destruct b0, b1, b2, b3, b4, b5, b6, b7; vm_compute;
    (split; [intros H; try discriminate H; auto
            | intros [H | H]; try discriminate H; reflexivity]).
Qed.

Lemma lower_char_e a : lower_char a = "e"%char <-> a = "E"%char \/ a = "e"%char.
Proof.
  destruct a as [b0 b1 b2 b3 b4 b5 b6 b7].
  destruct b0, b1, b2, b3, b4, b5, b6, b7; vm_compute;
    (split; [intros H; try discriminate H; auto
            | intros [H | H]; try discriminate H; reflexivity]).
Qed.

Lemma lower_char_s a : lower_char a = "s"%char <-> a = "S"%char \/ a = "s"%char.
Proof.
  destruct a as [b0 b1 b2 b3 b4 b5 b6 b7].
  destruct b0, b1, b2, b3, b4, b5, b6, b7; vm_compute;
    (split; [intros H; try discriminate H; auto
            | intros [H | H]; try discriminate H; reflexivity]).
Qed.

Lemma lower_yes s :
  lower s = "yes" <->
  exists a b c, s = [a; b; c]
    /\ (a = "Y" \/ a = "y")%char /\ (b = "E" \/ b = "e")%char
    /\ (c = "S" \/ c = "s")%char.
Proof.
  split.
  - intros H. destruct s as [| a [| b [| c [| ? ?]]]]; try discriminate H.
    change ([lower_char a; lower_char b; lower_char c]
            = ["y"%char; "e"%char; "s"%char]) in H.
    injection H as Ha Hb Hc. exists a, b, c.
    rewrite <- lower_char_y, <- lower_char_e, <- lower_char_s. auto.
  - intros (a & b & c & -> & Ha & Hb & Hc).
    apply lower_char_y in Ha. apply lower_char_e in Hb. apply lower_char_s in Hc.
    change ([lower_char a; lower_char b; lower_char c] = ("yes" : pystr)).
    rewrite Ha, Hb, Hc. reflexivity.
Qed.

(** X11. A row gets the VIP template exactly when its VIP cell, stripped,
    spells [yes] in any mix of cases and [static/Card_VIP.jpg] exists;
    every other row, also one whose VIP template is missing, gets
    [static/Card_Regular.jpg], whether that file exists or not. *)
Theorem row_template_choice (o : outcomes) (r : row) :
  (row_template o r = "static/Card_VIP.jpg" <->
     (exists a b c,
        strip (str_of (get (cVIP r) (text_cell "no"))) = [a; b; c]
        /\ (a = "Y" \/ a = "y")%char /\ (b = "E" \/ b = "e")%char
        /\ (c = "S" \/ c = "s")%char)
     /\ path_exists o "static/Card_VIP.jpg" = true)
  /\ (row_template o r <> "static/Card_VIP.jpg" ->
      row_template o r = "static/Card_Regular.jpg").
Proof.
  rewrite <- lower_yes. fold (row_vip_status r). unfold row_template.
  change (os_path_join "static" TEMPLATE_IMAGE) with ("static/Card_Regular.jpg" : pystr).
  destruct (pystr_eqb (row_vip_status r) "yes") eqn:E.
  - apply pystr_eqb_eq in E.
    change (os_path_join "static" "Card_VIP.jpg") with ("static/Card_VIP.jpg" : pystr).
    destruct (path_exists o "static/Card_VIP.jpg"); cbn [negb].
    + split; [| congruence]. split; auto.
    + split; [| reflexivity]. split; [discriminate |]. intros [_ H]. discriminate H.
  - change (os_path_join "static" "Card_Regular.jpg")
      with ("static/Card_Regular.jpg" : pystr).
    assert (N : row_vip_status r <> "yes").
    { intros H. apply pystr_eqb_eq in H. congruence. }
    destruct (negb (path_exists o "static/Card_Regular.jpg")).
    + split; [| reflexivity]. split; [discriminate | tauto].
    + split; [| reflexivity]. split; [discriminate | tauto].
Qed.

Lemma row_template_choice_witness :
  row_template fair john = "static/Card_VIP.jpg"
  /\ row_template fair jane = "static/Card_Regular.jpg".
Proof.
  split.
  - apply (proj1 (row_template_choice fair john)). split; [| reflexivity].
    exists "Y"%char, "e"%char, "s"%char. repeat split; auto.
  - apply (proj2 (row_template_choice fair jane)). discriminate.
Defined.

(** X12. A date that cannot be parsed does not fail the row: the card
    shows the raw cell text after [UNTIL - ], and what the date parser
    answers changes neither the outcome of the row nor the file name, the
    mail or the log. *)
Theorem unparseable_date_is_shown_raw (f : fonts) (folder : pystr) (o : outcomes)
    (r : row) (st : state) (c : cell) :
  cDate r = Some c -> notna c = true -> strftime o (str_of c) = None ->
  map text (overlays (draw_card f o r))
    = [display_text (row_Card r); ("VALID" : pystr); "UNTIL - " ++ str_of c; row_name r]
  /\ forall g,
       fst (process_row f folder (with_strftime g o) r st)
         = fst (process_row f folder o r st)
       /\ map fst (saved (snd (process_row f folder (with_strftime g o) r st)))
          = map fst (saved (snd (process_row f folder o r st)))
       /\ sent (snd (process_row f folder (with_strftime g o) r st))
          = sent (snd (process_row f folder o r st))
       /\ log (snd (process_row f folder (with_strftime g o) r st))
          = log (snd (process_row f folder o r st)).
Proof.
  intros Hd Hn Hp. split.
  - unfold draw_card, row_date. cbn [overlays map text].
    rewrite Hd. cbn [get]. rewrite Hn, Hp. reflexivity.
  - intros g. rewrite !process_row_step. unfold row_step.
    change (row_template (with_strftime g o) r) with (row_template o r).
    change (image_open (with_strftime g o)) with (image_open o).
    change (image_save (with_strftime g o)) with (image_save o).
    change (compose (with_strftime g o)) with (compose o).
    change (smtp (with_strftime g o)) with (smtp o).
    change (smtp_quit (with_strftime g o)) with (smtp_quit o).
    destruct (image_open o (row_template o r)); cbn [negb]; [| auto].
    destruct (image_save o (row_filename folder r)); cbn [negb]; [| auto].
    destruct (row_recipient r) as [e |]; [destruct (compose o); [destruct (smtp o) |] |];
      cbn; rewrite !map_app; auto.
Qed.

Lemma unparseable_date_is_shown_raw_witness :
  map text (overlays (draw_card (load_fonts (world_of (fun _ => fair)))
                        (with_strftime (fun _ => None) fair) john))
  = [("STE 12345 690 7890" : pystr); ("VALID" : pystr);
     ("UNTIL - 2024-12-31" : pystr); ("John Doe" : pystr)].
Proof.
  exact (proj1 (unparseable_date_is_shown_raw
                  (load_fonts (world_of (fun _ => fair))) "web_cards"
                  (with_strftime (fun _ => None) fair) john init
                  (text_cell "2024-12-31") eq_refl eq_refl eq_refl)).
Defined.

(** ** The packager *)

Lemma flat_map_filter {A} (p : A -> bool) (l : list A) :
  flat_map (fun x => if p x then [x] else []) l = filter p l.
Proof.
  induction l as [| x l IH]; [reflexivity |].
  cbn. destruct (p x); cbn; rewrite IH; reflexivity.
Qed.

Lemma zip_folder_Dir {A} top (files : list (pystr * A)) dirs :
  zip_folder top (Dir files dirs)
  = filter is_png files
    ++ flat_map (fun d => zip_folder (os_path_join top (fst d)) (snd d)) dirs.
Proof.
  unfold zip_folder. cbn [os_walk flat_map snd]. f_equal.
  - rewrite <- flat_map_filter. apply flat_map_ext.
    intros [name c]. reflexivity.
  - induction dirs as [| d dirs IH]; [reflexivity |].
    cbn [flat_map]. rewrite flat_map_app, IH. reflexivity.
Qed.

Lemma tree_rect' {A} (P : tree A -> Prop) :
  (forall files dirs, Forall (fun d => P (snd d)) dirs -> P (Dir files dirs)) ->
  forall t, P t.
Proof.
  intros H. fix IH 1. intros [files dirs]. apply H.
  induction dirs as [| d dirs IHd]; constructor; [apply IH | exact IHd].
Qed.

(** X13. The archive holds exactly the files of the folder and of every
    folder below it whose lower-cased name ends in [.png], each under its
    bare file name: other files are left out, the folder a file sits in is
    not recorded, and the path the folder was given by plays no part. *)
Theorem zip_folder_contents {A} (folder_path : pystr) (t : tree A) :
  zip_folder folder_path t = filter is_png (all_files t).
Proof.
  revert folder_path. induction t as [files dirs IH] using tree_rect'.
  intros top. rewrite zip_folder_Dir. cbn [all_files]. rewrite filter_app.
  f_equal. clear files. induction IH as [| d dirs Hd _ IHd]; [reflexivity |].
  cbn [flat_map]. rewrite filter_app, Hd, IHd. reflexivity.
Qed.

Lemma artifact_name_is_png {A} name Card (c : A) :
  is_png (artifact_name name Card, c) = true.
Proof. apply lower_png, artifact_name_png. Qed.

(** X14. A flat folder whose files all carry names the pipeline gives to
    cards is packed whole: every card is in the archive, with its name and
    content, in the order of the listing. *)
Theorem zip_folder_packs_every_card {A} (folder_path : pystr) (files : list (pystr * A)) :
  Forall (fun file => exists name Card, fst file = artifact_name name Card) files ->
  zip_folder folder_path (Dir files []) = files.
Proof.
  intros H. rewrite zip_folder_contents. cbn [all_files flat_map].
  rewrite app_nil_r. induction H as [| [n c] files (name & Card & Hn) _ IH];
    [reflexivity |].
  cbn [filter]. cbn [fst] in Hn. subst n.
  rewrite artifact_name_is_png, IH. reflexivity.
Qed.

Lemma zip_folder_packs_every_card_witness :
  zip_folder "web_cards"
    (Dir [(artifact_name "John Doe" "STE 12345 690 7890", 1);
          (artifact_name "Jane Smith" "CII 98765 432 1098", 2)] [])
  = [(("John_Doe_STE_12345_690_7890.png" : pystr), 1);
     (("Jane_Smith_CII_98765_432_1098.png" : pystr), 2)].
Proof.
  apply (zip_folder_packs_every_card "web_cards"
           [(artifact_name "John Doe" "STE 12345 690 7890", 1);
            (artifact_name "Jane Smith" "CII 98765 432 1098", 2)]).
  repeat constructor; eexists _, _; reflexivity.
Defined.

(** ** The JSON route *)

Lemma api_row_recipient d : row_recipient (api_row d) = None.
Proof. reflexivity. Qed.

Lemma api_row_template o d : row_template o (api_row d) = "static/Card_Regular.jpg".
Proof.
  unfold row_template.
  change (pystr_eqb (row_vip_status (api_row d)) "yes") with false.
  cbv iota.
  change (os_path_join "static" "Card_Regular.jpg") with ("static/Card_Regular.jpg" : pystr).
  change (os_path_join "static" TEMPLATE_IMAGE) with ("static/Card_Regular.jpg" : pystr).
  destruct (negb _); reflexivity.
Qed.

Lemma listdir_fresh_one st folder r (im : image) :
  listdir_fresh st (set_saved st (saved st ++ [(row_filename folder r, im)]))
  = [artifact_name (row_name r) (row_Card r)].
Proof.
  unfold listdir_fresh, set_saved. cbn [saved].
  rewrite (skipn_exact (length (saved st)) (saved st) _ eq_refl).
  cbn [map fst]. rewrite row_filename_basename. reflexivity.
Qed.

(** The route on a payload with the three fields, outcome by outcome. *)
Lemma api_create_card_run (w : world) (d : dict) (tmpdir : pystr) (st : state) :
  d <> [] ->
  forallb (dict_has d) ["Name" : pystr; "Card" : pystr; "Date" : pystr] = true ->
  api_create_card w (Some d) tmpdir st =
    if renders tmpdir (at_row w 0) (api_row d) then
      (inl (SendFile (row_filename tmpdir (api_row d)) "card.png"),
       set_saved st (saved st
                     ++ [row_artifact (load_fonts w) tmpdir (at_row w 0) (api_row d)]))
    else if image_open (at_row w 0) "static/Card_Regular.jpg" then
      (inr (SaveFailed (row_filename tmpdir (api_row d))), st)
    else (inr (OpenFailed "static/Card_Regular.jpg"), st).
Proof.
  intros Hd Hk. unfold api_create_card.
  destruct d as [| kv d']; [congruence |]. rewrite Hk. cbn [negb].
  unfold generate_cards_from_df. cbn [iterrows]. unfold bind.
  rewrite process_row_step. unfold row_step, renders.
  rewrite (api_row_recipient (kv :: d')), (api_row_template (at_row w 0) (kv :: d')).
  destruct (image_open (at_row w 0) "static/Card_Regular.jpg"); cbn [negb andb];
    [| reflexivity].
  destruct (image_save (at_row w 0) (row_filename tmpdir (api_row (kv :: d'))));
    cbn [negb]; [| reflexivity].
  unfold ret, row_artifact. rewrite listdir_fresh_one. cbn [find].
  rewrite artifact_name_png. reflexivity.
Qed.

(** X15. On a payload holding Name, Card and Date, the JSON route draws
    the card on the regular template and answers with the saved file as
    [card.png]; when rendering fails the exception leaves the route, and
    nothing has been written. *)
Theorem api_create_card_sends_the_card (w : world) (d : dict) (tmpdir : pystr)
    (st : state) :
  d <> [] ->
  forallb (dict_has d) ["Name" : pystr; "Card" : pystr; "Date" : pystr] = true ->
  row_template (at_row w 0) (api_row d) = "static/Card_Regular.jpg"
  /\ (renders tmpdir (at_row w 0) (api_row d) = true ->
      api_create_card w (Some d) tmpdir st
      = (inl (SendFile (row_filename tmpdir (api_row d)) "card.png"),
         set_saved st
           (saved st
            ++ [(row_filename tmpdir (api_row d),
                 draw_card (load_fonts w) (at_row w 0) (api_row d))])))
  /\ (renders tmpdir (at_row w 0) (api_row d) = false ->
      exists e, api_create_card w (Some d) tmpdir st = (inr e, st)).
Proof.
  intros Hd Hk. split; [apply api_row_template |].
  pose proof (api_create_card_run w d tmpdir st Hd Hk) as Hrun.
  split; intros Hr; rewrite Hr in Hrun.
  - exact Hrun.
  - destruct (image_open _ _); eexists; exact Hrun.
Qed.

Lemma api_create_card_sends_the_card_witness :
  fst (api_create_card (world_of (fun _ => fair))
         (Some [(("Name" : pystr), text_cell "John Doe");
                (("Card" : pystr), text_cell "ABC123");
                (("Date" : pystr), text_cell "2024-12-31")])
         "/tmp/tmpab12" init)
  = inl (SendFile "/tmp/tmpab12/John_Doe_ABC123.png" "card.png").
Proof.
  exact (f_equal fst
    (proj1 (proj2 (api_create_card_sends_the_card (world_of (fun _ => fair))
             [(("Name" : pystr), text_cell "John Doe");
              (("Card" : pystr), text_cell "ABC123");
              (("Date" : pystr), text_cell "2024-12-31")]
             "/tmp/tmpab12" init ltac:(discriminate) eq_refl)) eq_refl)).
Defined.

(** X16. Whatever the payload and the world, the JSON route sends no mail
    and logs nothing, and it never answers [500 Card image not generated]:
    when the pipeline returns, the card is in the fresh directory.  On a
    400 answer nothing has been written. *)
Theorem api_create_card_never (w : world) (data : option dict) (tmpdir : pystr)
    (st : state) :
  sent (snd (api_create_card w data tmpdir st)) = sent st
  /\ log (snd (api_create_card w data tmpdir st)) = log st
  /\ (forall msg, fst (api_create_card w data tmpdir st) <> inl (JsonError 500 msg))
  /\ (forall msg, fst (api_create_card w data tmpdir st) = inl (JsonError 400 msg) ->
      snd (api_create_card w data tmpdir st) = st).
Proof.
  destruct data as [[| kv d] |];
    try (cbn; repeat split; auto; intros msg H; discriminate H).
  destruct (forallb (dict_has (kv :: d)) ["Name" : pystr; "Card" : pystr; "Date" : pystr])
    eqn:Hk.
  - rewrite (api_create_card_run w (kv :: d) tmpdir st ltac:(discriminate) Hk).
    destruct (renders _ _ _); [| destruct (image_open _ _)];
      cbn; repeat split; auto; intros msg H; discriminate H.
  - unfold api_create_card. rewrite Hk.
    cbn; repeat split; auto; intros msg H; discriminate H.
Qed.

Lemma api_create_card_never_witness :
  snd (api_create_card (world_of (fun _ => fair))
         (Some [(("Name" : pystr), text_cell "John Doe")]) "/tmp/tmpab12" init)
  = init.
Proof.
  exact (proj2 (proj2 (proj2
    (api_create_card_never (world_of (fun _ => fair))
       (Some [(("Name" : pystr), text_cell "John Doe")]) "/tmp/tmpab12" init)))
    "Missing fields: Name, Card, Date" eq_refl).
Defined.

(** ** The upload route *)

Lemma allowed_file_returns filename : exists b, allowed_file filename = Some b.
Proof.
  unfold allowed_file, rsplit1.
  destruct (contains "." filename) eqn:Hc; [| eexists; reflexivity].
  destruct (rpartition "." filename) as [[a b] |] eqn:E; [eexists; reflexivity |].
  apply rpartition_none in E. congruence.
Qed.

(** X17. The upload route never raises: every request is answered, and an
    exception inside its [try] becomes a redirect.  A request that is not
    the POST of a file with an accepted name leaves the output folder, the
    mail and the log as they were. *)
Theorem index_always_answers (w : world) (s : site) (m : http_method)
    (file : option upload) (st : state) :
  (exists r st', index w s m file st = (inl r, st'))
  /\ (m = GET \/ file = None
      \/ (exists u, file = Some u /\ allowed_file (upload_filename u) <> Some true) ->
      snd (index w s m file st) = st).
Proof.
  split.
  - unfold index. destruct m; [eexists _, _; reflexivity |].
    destruct file as [u |]; [| eexists _, _; reflexivity].
    destruct (length (upload_filename u) =? 0); [eexists _, _; reflexivity |].
    destruct (allowed_file_returns (upload_filename u)) as [[] ->];
      [| eexists _, _; reflexivity].
    destruct (index_try w s u st) as [[r | e] st']; eexists _, _; reflexivity.
  - unfold index. intros [-> | [-> | (u & -> & Hu)]].
    + reflexivity.
    + destruct m; reflexivity.
    + destruct m; [reflexivity |].
      destruct (length (upload_filename u) =? 0); [reflexivity |].
      destruct (allowed_file (upload_filename u)) as [[] |]; [congruence | |];
        reflexivity.
Qed.

Lemma index_always_answers_witness :
  snd (index (world_of (fun _ => fair))
         {| makedirs_raises := None; tmp_zip := inr ("/tmp/a.zip" : pystr);
            format_exc := []; str_exn := fun _ => []; dir_rank := fun _ => 0 |}
         POST
         (Some {| upload_filename := "cards.csv"; save_raises := None;
                  read_excel := inr (5, [john; jane]) |})
         init) = init.
Proof.
  apply (proj2 (index_always_answers (world_of (fun _ => fair))
           {| makedirs_raises := None; tmp_zip := inr ("/tmp/a.zip" : pystr);
              format_exc := []; str_exn := fun _ => []; dir_rank := fun _ => 0 |}
           POST
           (Some {| upload_filename := "cards.csv"; save_raises := None;
                    read_excel := inr (5, [john; jane]) |})
           init)).
  right. right. eexists. split; [reflexivity |]. discriminate.
Defined.

Lemma iterrows_aborts f folder w pre r post i st :
  sound_from folder w i pre ->
  renders folder (w (i + length pre)) r = false ->
  exists e st',
    iterrows (process_row f folder) w i (pre ++ r :: post) st = (inr e, st')
    /\ (e = OpenFailed (row_template (w (i + length pre)) r)
        \/ e = SaveFailed (row_filename folder r))
    /\ saved st' = saved st ++ artifacts_from f folder w i pre
    /\ sent st' = sent (snd (iterrows (process_row f folder) w i pre st))
    /\ log st' = log (snd (iterrows (process_row f folder) w i pre st)).
Proof.
  intros Hpre Hr.
  destruct (iterrows_returns f folder w pre i st Hpre)
    as (st1 & Hrun & Hsaved & _).
  destruct (process_row_render_fails f folder (w (i + length pre)) r st1 Hr)
    as (e & Hfail & He).
  exists e, st1. rewrite iterrows_app, Hrun. cbn [iterrows snd].
  unfold bind at 1. rewrite Hfail. repeat split; assumption.
Qed.

(** X18. When a row of the uploaded sheet cannot be rendered, the whole
    upload is answered by the redirect whose flash is [Processing error: ]
    followed by the text of the image library's exception, and no archive
    is sent; the traceback is logged, and the cards of the rows before the
    failing one are left in the output folder. *)
Theorem index_render_failure (w : world) (s : site) (u : upload) (st : state)
    (ncols : nat) (pre post : list row) (r : row) :
  length (upload_filename u) <> 0 ->
  allowed_file (upload_filename u) = Some true ->
  makedirs_raises s = None -> save_raises u = None ->
  read_excel u = inr (ncols, pre ++ r :: post) -> 3 <= ncols ->
  (forall k r', nth_error pre k = Some r' ->
     renders OUTPUT_FOLDER (at_row w k) r' = true /\ compose (at_row w k) = true) ->
  renders OUTPUT_FOLDER (at_row w (length pre)) r = false ->
  exists e st',
    index w s POST (Some u) st
    = (inl (Plain (Redirect ("Processing error: " ++ str_exn s e))), st')
    /\ (e = OpenFailed (row_template (at_row w (length pre)) r)
        \/ e = SaveFailed (row_filename OUTPUT_FOLDER r))
    /\ saved st'
       = saved (rmtree OUTPUT_FOLDER st)
         ++ artifacts_from (load_fonts w) OUTPUT_FOLDER (at_row w) 0 pre
    /\ sent st' = sent (snd (generate_cards_from_df w pre OUTPUT_FOLDER
                               (rmtree OUTPUT_FOLDER st)))
    /\ log st' = log (snd (generate_cards_from_df w pre OUTPUT_FOLDER
                             (rmtree OUTPUT_FOLDER st)))
                 ++ [LogError (format_exc s)].
Proof.
  intros Hn Ha Hm Hs Hx Hc Hpre Hr.
  destruct (iterrows_aborts (load_fonts w) OUTPUT_FOLDER (at_row w) pre r post 0
              (rmtree OUTPUT_FOLDER st) Hpre Hr)
    as (e & st2 & Hrun & He & Hsaved & Hsent & Hlog).
  exists e. eexists. unfold index, index_try.
  apply Nat.eqb_neq in Hn. rewrite Hn, Ha, Hm, Hs, Hx.
  assert (Hlt : (ncols <? 3) = false) by (apply Nat.ltb_ge; exact Hc).
  rewrite Hlt. unfold generate_cards_from_df. rewrite Hrun.
  split; [destruct He as [-> | ->]; reflexivity |].
  split; [exact He |]. split; [exact Hsaved |]. cbn [sent log].
  split; [exact Hsent |]. rewrite Hlog. reflexivity.
Qed.

Lemma index_render_failure_witness :
  fst (index (world_of (fun i => if i =? 1 then unreadable_template else fair))
         {| makedirs_raises := None; tmp_zip := inr ("/tmp/a.zip" : pystr);
            format_exc := "Traceback";
            str_exn := fun _ => "cannot identify image file 'static/Card_Regular.jpg'";
            dir_rank := fun _ => 0 |}
         POST
         (Some {| upload_filename := "cards.XLSX"; save_raises := None;
                  read_excel := inr (5, [john] ++ jane :: []) |})
         init)
  = inl (Plain (Redirect
      "Processing error: cannot identify image file 'static/Card_Regular.jpg'")).
Proof.
  assert (Hpre : forall k r', nth_error [john] k = Some r' ->
            renders OUTPUT_FOLDER
              (at_row (world_of (fun i => if i =? 1 then unreadable_template else fair)) k)
              r' = true
            /\ compose
                 (at_row (world_of (fun i => if i =? 1 then unreadable_template else fair)) k)
               = true).
  { intros [| [| k]] r' E; try discriminate E. split; reflexivity. }
  destruct (index_render_failure
              (world_of (fun i => if i =? 1 then unreadable_template else fair))
              {| makedirs_raises := None; tmp_zip := inr ("/tmp/a.zip" : pystr);
                 format_exc := "Traceback";
                 str_exn := fun _ =>
                   "cannot identify image file 'static/Card_Regular.jpg'";
                 dir_rank := fun _ => 0 |}
              {| upload_filename := "cards.XLSX"; save_raises := None;
                 read_excel := inr (5, [john] ++ jane :: []) |}
              init 5 [john] [] jane
              ltac:(discriminate) eq_refl eq_refl eq_refl eq_refl ltac:(lia)
              Hpre eq_refl)
    as (e & st' & Hrun & _).
  rewrite Hrun. reflexivity.
Defined.
